(** * bw2landbalancer: the database-level land balancer

    A shallow embedding of [bw2landbalancer/database_land_balancer.py]
    (class [DatabaseLandBalancer]) and the properties of its bookkeeping:
    the land-flow classifier run by [__init__], the accumulation done by
    [add_samples_for_act] and [add_samples_for_all_acts], and the export
    guard of [create_presamples].

    The brightway project ([bd.databases], [bd.Database], [bd.get_activity])
    is a finite map from database names to the datasets each database
    stores; every iteration over a database runs in an order of its own.
    The collaborators that live outside the module
    ([ActivityLandBalancer.generate_samples], [split_inventory_presamples],
    [create_presamples_package]) are section variables. *)

From stdpp Require Import gmap strings list pretty.
From Stdlib Require Import ZArith Lia.

Local Open Scope string_scope.
Local Open Scope list_scope.

(** ** Python values the module handles *)

(** A brightway key: the pair (database name, code). *)
Definition Key : Type := string * string.

(** A dataset as the module reads it: [ef.key] and [ef['name']]. *)
Record dataset : Type := Dataset { key : Key; name : string }.

(** The project: [bd.databases] is the domain, and [Database env n] is what
    the database [n] stores. *)
Abbreviation project := (gmap string (list dataset)).

Definition Database (env : project) (n : string) : list dataset :=
  default [] (env !! n).

(** [for ef in bd.Database(n)] does not follow a stored order: brightway
    draws the order anew for each iteration.  An [order] is the sequence of
    draws of one iteration: each draw picks, by its position, the next
    dataset among those not yet visited (a missing draw picks the first). *)
Definition order : Type := list nat.

Fixpoint draw_n {A} (n : nat) (picks : order) (l : list A) : list A :=
  match n with
  | O => []
  | S n' =>
    let i := (default 0%nat (head picks) `mod` length l)%nat in
    match l !! i with
    | Some x => x :: draw_n n' (tail picks) (delete i l)
    | None => []
    end
  end.

Definition draw {A} (picks : order) (l : list A) : list A :=
  draw_n (length l) picks l.

(** Exceptions that can reach the caller. *)
Inductive pyexn : Type :=
| ValueError (msg : string)
| IndexError (msg : string)
| UnknownObject (k : Key)
| AssertionError
| CollaboratorError (msg : string).

Inductive result (A : Type) : Type :=
| Ok (a : A)
| Raise (e : pyexn).
Arguments Ok {A} a.
Arguments Raise {A} e.

(** A component of an index tuple: a key or a string tag. *)
Inductive field : Type :=
| FKey (k : Key)
| FStr (s : string).

(** An index tuple, [(flow_key, act_key)] or [(flow_key, act_key, tag)]. *)
Definition index_entry : Type := list field.

(** What [bd.get_activity] hands back, and what a caller of
    [add_samples_for_act] may pass instead: the bare key. *)
Inductive act_arg : Type :=
| ByKey (k : Key)
| ByActivity (d : dataset).

(** The [seed] argument of [create_presamples]: None, an int or 'sequential'. *)
Inductive seed_policy : Type :=
| SeedNone
| SeedInt (z : Z)
| SeedSequential.

(** Observable effects: stdout, the warnings channel and the calls made to
    the collaborators. *)
Inductive event : Type :=
| Print (s : string)
| Warn (s : string)
| Resample (act : act_arg) (iterations : Z)
| WritePackage (pkg_name pkg_id : option string) (overwrite : bool)
               (dirpath : option string) (seed : seed_policy).

(** ** [pattern in name] on Python strings *)

Fixpoint contains (p s : string) : bool :=
  if String.prefix p s then true
  else match s with
       | EmptyString => false
       | String _ s' => contains p s'
       end.

(** ** The land-flow classifier (the two loops of [__init__])

    [for ef in bd.Database(biosphere): for pat in patterns:
       if pat in ef['name']: keys.append(ef.key)] *)

Definition classify_flow (patterns : list string) (acc : list Key) (ef : dataset)
  : list Key :=
  fold_left (fun acc pat => if contains pat (name ef) then acc ++ [key ef] else acc)
            patterns acc.

Definition classify (flows : list dataset) (patterns : list string) : list Key :=
  fold_left (classify_flow patterns) flows [].

(** ** numpy arrays of rank two

    Only the shape and the row order matter to the balancer; [sample] is the
    dtype of the cells. *)

Section Balancer.

Context {sample : Type}.

Record ndarray : Type := NdArray { ncols : nat; rows : list (list sample) }.

Definition nrows (a : ndarray) : nat := length (rows a).

Definition concatenate_mismatch : pyexn :=
  ValueError
    "all the input array dimensions except for the concatenation axis must match exactly".

(** [np.concatenate([a, b], axis=0)]: the column counts must agree. *)
Definition np_concatenate (a b : ndarray) : result ndarray :=
  if decide (ncols a = ncols b)
  then Ok {| ncols := ncols a; rows := rows a ++ rows b |}
  else Raise concatenate_mismatch.

(** ** The balancer object *)

Record DatabaseLandBalancer : Type := Balancer {
  database_name : string;
  biosphere : string;
  group : string;
  matrix_indices : list index_entry;
  matrix_samples : option ndarray;
  land_in_keys : list Key;
  land_out_keys : list Key;
  all_land_keys : list Key
}.

(** [__init__]: what is printed, and the object or the exception.  The two
    loops over the biosphere are two iterations, each in its own order. *)
Definition init (env : project) (order_from order_to : order)
    (database_name biosphere group : string)
    (land_from_patterns land_to_patterns : list string)
  : list event * result DatabaseLandBalancer :=
  let out := [Print "Validating data"] in
  match env !! database_name with
  | None => (out, Raise (ValueError ("Database " +:+ database_name +:+ " not imported")))
  | Some _ =>
    match env !! biosphere with
    | None => (out, Raise (ValueError ("Database " +:+ biosphere +:+ " not imported")))
    | Some _ =>
      let out := out ++ [Print "Getting information on land transformation exchanges"] in
      let land_in_keys :=
        classify (draw order_from (Database env biosphere)) land_from_patterns in
      let land_out_keys :=
        classify (draw order_to (Database env biosphere)) land_to_patterns in
      (out, Ok {| database_name := database_name;
                  biosphere := biosphere;
                  group := group;
                  matrix_indices := [];
                  matrix_samples := None;
                  land_in_keys := land_in_keys;
                  land_out_keys := land_out_keys;
                  all_land_keys := land_in_keys ++ land_out_keys |})
    end
  end.

(** ** Methods: state, exceptions and emitted events

    A method runs on the object [self]; it always leaves an object behind
    (mutations done before an exception stay), emits events, and returns a
    value or raises. *)

Record outcome (A : Type) : Type := Outcome {
  final : DatabaseLandBalancer;
  emitted : list event;
  value : result A
}.
Arguments Outcome {A} final emitted value.
Arguments final {A} o.
Arguments emitted {A} o.
Arguments value {A} o.

Definition M (A : Type) : Type := DatabaseLandBalancer -> outcome A.

Definition ret {A} (a : A) : M A := fun self => Outcome self [] (Ok a).

Definition raise {A} (e : pyexn) : M A := fun self => Outcome self [] (Raise e).

Definition bind {A B} (m : M A) (k : A -> M B) : M B := fun self =>
  let o := m self in
  match value o with
  | Ok a =>
    let o' := k a (final o) in
    Outcome (final o') (emitted o ++ emitted o') (value o')
  | Raise e => Outcome (final o) (emitted o) (Raise e)
  end.

Definition get_self : M DatabaseLandBalancer := fun self => Outcome self [] (Ok self).

Definition emit (ev : event) : M unit := fun self => Outcome self [ev] (Ok tt).

Definition lift {A} (r : result A) : M A := fun self => Outcome self [] r.

(** [self.matrix_indices = l] and [self.matrix_samples = a]. *)
Definition with_matrix_indices (self : DatabaseLandBalancer) (l : list index_entry)
  : DatabaseLandBalancer :=
  {| database_name := database_name self;
     biosphere := biosphere self;
     group := group self;
     matrix_indices := l;
     matrix_samples := matrix_samples self;
     land_in_keys := land_in_keys self;
     land_out_keys := land_out_keys self;
     all_land_keys := all_land_keys self |}.

Definition with_matrix_samples (self : DatabaseLandBalancer) (a : ndarray)
  : DatabaseLandBalancer :=
  {| database_name := database_name self;
     biosphere := biosphere self;
     group := group self;
     matrix_indices := matrix_indices self;
     matrix_samples := Some a;
     land_in_keys := land_in_keys self;
     land_out_keys := land_out_keys self;
     all_land_keys := all_land_keys self |}.

Definition set_matrix_indices (l : list index_entry) : M unit := fun self =>
  Outcome (with_matrix_indices self l) [] (Ok tt).

Definition set_matrix_samples (a : ndarray) : M unit := fun self =>
  Outcome (with_matrix_samples self a) [] (Ok tt).

Notation "x <- m ;; k" := (bind m (fun x => k))
  (at level 100, m at next level, right associativity).
Notation "m ;;; k" := (bind m (fun _ => k))
  (at level 100, right associativity).

(** A [for] loop over a list: the first exception ends it. *)
Fixpoint for_each {A} (l : list A) (body : A -> M unit) : M unit :=
  match l with
  | [] => ret tt
  | x :: l' => body x ;;; for_each l' body
  end.

(** ** The per-activity resampler

    [ActivityLandBalancer] lives in [activity_land_balancer.py] and is not
    modelled: the resampler is a parameter of the development.  All the
    balancer relies on is the generator protocol:
    [ActivityLandBalancer(act, self).generate_samples(iterations)] yields
    pairs [(data[0], data[1])], a numeric block and its index block, and then
    either stops or raises.  An exception of the constructor is a trace
    without yields; an activity without land exchanges is a trace that stops
    at once.  The trace is that of the generator started on the balancer as
    the call finds it. *)

Record gen_trace : Type := GenTrace {
  yields : list (ndarray * list index_entry);
  raised : option pyexn
}.

Variable generate_samples : act_arg -> DatabaseLandBalancer -> Z -> gen_trace.

(** [for data in gen: body(data)] *)
Definition for_generated (g : gen_trace) (body : ndarray * list index_entry -> M unit)
  : M unit :=
  for_each (yields g) body ;;;
  match raised g with
  | Some e => raise e
  | None => ret tt
  end.

(** [self.matrix_indices.append(x)] *)
Definition append_index (x : index_entry) : M unit :=
  self <- get_self ;; set_matrix_indices (matrix_indices self ++ [x]).

(** Line 119: [self.matrix_indices.append((row[0], row[1], 'biosphere'))] *)
Definition tag_row (row : index_entry) : M unit :=
  match row !! 0%nat, row !! 1%nat with
  | Some r0, Some r1 => append_index [r0; r1; FStr "biosphere"]
  | _, _ => raise (IndexError "tuple index out of range")
  end.

(** Lines 117-121: the shape of the first index tuple decides for the block. *)
Definition add_indices (idx : list index_entry) : M unit :=
  match idx !! 0%nat with
  | None => raise (IndexError "list index out of range")
  | Some first =>
    if decide (length first = 2%nat) then for_each idx tag_row
    else self <- get_self ;; set_matrix_indices (matrix_indices self ++ idx)
  end.

(** Lines 122-125: the first block becomes the matrix, later ones are stacked. *)
Definition add_block (blk : ndarray) : M unit :=
  self <- get_self ;;
  match matrix_samples self with
  | None => set_matrix_samples blk
  | Some m => stacked <- lift (np_concatenate m blk) ;; set_matrix_samples stacked
  end.

(** The body of the loop of [add_samples_for_act], for one yielded [data]. *)
Definition add_data (data : ndarray * list index_entry) : M unit :=
  add_indices (snd data) ;;; add_block (fst data).

Definition add_samples_for_act (act : act_arg) (iterations : Z) : M unit :=
  self <- get_self ;;
  emit (Resample act iterations) ;;;
  for_generated (generate_samples act self iterations) add_data.

(** [bd.get_activity(key)]: the dataset stored under the key, if any. *)
Definition get_activity (env : project) (k : Key) : result dataset :=
  match List.find (fun d => bool_decide (key d = k)) (Database env (fst k)) with
  | Some d => Ok d
  | None => Raise (UnknownObject k)
  end.

(** The body of the loop of [add_samples_for_all_acts], in the project as it
    is when the key is handled. *)
Definition add_samples_for_key (env : project) (iterations : Z) (act_key : Key)
  : M unit :=
  act <- lift (get_activity env act_key) ;;
  add_samples_for_act (ByActivity act) iterations.

(** [pyprind.prog_bar(seq)] hands on the items of [seq] in order.  It asserts
    that there is something to count, so an empty [seq] raises an
    [AssertionError] when the loop starts.  The bar it draws on stderr is
    left out. *)
Definition prog_bar {A} (l : list A) (body : A -> M unit) : M unit :=
  match l with
  | [] => raise AssertionError
  | _ :: _ => for_each l body
  end.

(** The steps of a loop, numbered from [i]. *)
Fixpoint numbered {A} (i : nat) (l : list A) : list (nat * A) :=
  match l with
  | [] => []
  | x :: l' => (i, x) :: numbered (S i) l'
  end.

Definition add_samples_for_step (later : nat -> project) (iterations : Z)
    (step : nat * Key) : M unit :=
  add_samples_for_key (later (fst step)) iterations (snd step).

(** The keys are listed once, from the project [env] as it is when the
    method is called, in the order of that iteration.  The databases may
    change while the batch runs: [later i] is the project as it is when the
    key of step [i] is looked up. *)
Definition add_samples_for_all_acts (env : project) (picks : order)
    (later : nat -> project) (iterations : Z) : M unit :=
  self <- get_self ;;
  let act_keys := map key (draw picks (Database env (database_name self))) in
  prog_bar (numbered 0 act_keys) (add_samples_for_step later iterations).

(** ** Export

    The two routines of [presamples] do not write to the arrays of the
    balancer.  The partition routine is a function of the arrays.  What the
    package writer answers also depends on what it finds when it is called:
    the packages that exist already (an existing id is refused unless
    [overwrite] is set) and the id it generates when none is given.  That
    state of the package directory and of the id generator is a
    [package_store]; each call of [create_presamples] is made on the store
    as it is then. *)

Context {matrix_data package_store : Type}.
Variable split_inventory_presamples :
  option ndarray -> list index_entry -> result matrix_data.
Variable create_presamples_package :
  package_store -> matrix_data -> option string -> option string -> bool ->
  option string -> seed_policy -> result (string * string).

(** Python truthiness of the two operands of [all([...])]. *)
Definition is_not_None {A} (o : option A) : bool :=
  match o with Some _ => true | None => false end.

Definition truthy {A} (l : list A) : bool :=
  match l with [] => false | _ :: _ => true end.

Definition no_data_warning : string :=
  "No presamples created because there were no matrix data. " +:+
  "Make sure to run `add_samples_for_all_acts` or " +:+
  "`add_samples_for_act` for a set of acts first.".

Definition create_presamples (store : package_store)
    (pkg_name pkg_id : option string) (overwrite : bool)
    (dirpath : option string) (seed : seed_policy)
  : M (option (string * string)) :=
  self <- get_self ;;
  if negb (forallb id [is_not_None (matrix_samples self); truthy (matrix_indices self)])
  then emit (Warn no_data_warning) ;;; ret None
  else
    md <- lift (split_inventory_presamples (matrix_samples self) (matrix_indices self)) ;;
    emit (WritePackage pkg_name pkg_id overwrite dirpath seed) ;;;
    written <- lift (create_presamples_package store md pkg_name pkg_id overwrite
                                               dirpath seed) ;;
    emit (Print ("Presamples with id_ " +:+ fst written +:+ " written at " +:+ snd written)) ;;;
    ret (Some written).

(** ** Specification vocabulary *)

(** The patterns of one category that occur in the name of a flow. *)
Definition matching (patterns : list string) (ef : dataset) : list string :=
  List.filter (fun pat => contains pat (name ef)) patterns.

(** The rows accumulated so far; an unset matrix has none. *)
Definition rows_of (m : option ndarray) : list (list sample) :=
  match m with
  | None => []
  | Some a => rows a
  end.

(** The final form of an index tuple: a pair gets the tag appended. *)
Definition normalized (e : index_entry) : index_entry :=
  if decide (length e = 2%nat) then e ++ [FStr "biosphere"] else e.

(** A client calling [add_samples_for_act] several times in a row. *)
Definition run_calls (calls : list (act_arg * Z)) : M unit :=
  for_each calls (fun c => add_samples_for_act (fst c) (snd c)).

(** The pairs the resampler yields over such a run of calls. *)
Fixpoint blocks_yielded (calls : list (act_arg * Z)) (self : DatabaseLandBalancer)
  : list (ndarray * list index_entry) :=
  match calls with
  | [] => []
  | c :: calls' =>
    yields (generate_samples (fst c) self (snd c))
    ++ blocks_yielded calls' (final (add_samples_for_act (fst c) (snd c) self))
  end.

(** What a successful [add_indices] appends for a block: the shape of the
    first tuple decides, and a tagged row keeps its first two components. *)
Definition appended (idx : list index_entry) : list index_entry :=
  match idx with
  | [] => []
  | first :: _ =>
    if decide (length first = 2%nat)
    then map (fun row => take 2 row ++ [FStr "biosphere"]) idx
    else idx
  end.

(** The fields [__init__] sets and no method assigns. *)
Definition same_configuration (s s' : DatabaseLandBalancer) : Prop :=
  database_name s' = database_name s /\
  biosphere s' = biosphere s /\
  group s' = group s /\
  land_in_keys s' = land_in_keys s /\
  land_out_keys s' = land_out_keys s /\
  all_land_keys s' = all_land_keys s.

(** * Properties *)

(** ** Iteration orders *)

(** An iteration visits what is stored, each dataset once. *)
Lemma draw_n_Permutation {A} (n : nat) (picks : order) (l : list A) :
  length l = n -> draw_n n picks l ≡ₚ l.
Proof.
  revert picks l. induction n as [|n IH]; intros picks l Hlen; cbn [draw_n].
  - now destruct l.
  - assert (Hlt : (default 0%nat (head picks) `mod` length l < length l)%nat)
      by (apply Nat.mod_upper_bound; lia).
    destruct (lookup_lt_is_Some_2 l _ Hlt) as [x Hx]. rewrite Hx.
    transitivity (x :: delete (default 0%nat (head picks) `mod` length l)%nat l);
      [|symmetry; apply (delete_Permutation l _ x Hx)].
    constructor. apply IH. rewrite length_delete by eauto. lia.
Qed.

Lemma draw_Permutation {A} (picks : order) (l : list A) : draw picks l ≡ₚ l.
Proof. now apply draw_n_Permutation. Qed.

Lemma draw_n_pick {A} (n i : nat) (picks : order) (l : list A) (x : A) :
  l !! i = Some x -> length l = S n ->
  draw_n (S n) (i :: picks) l = x :: draw_n n picks (delete i l).
Proof.
  intros Hx Hlen. cbn [draw_n].
  change (default 0%nat (head (i :: picks))) with i.
  change (tail (i :: picks)) with picks.
  rewrite Nat.mod_small by (apply lookup_lt_Some in Hx; exact Hx).
  now rewrite Hx.
Qed.

(** Every order of the stored datasets is the order of some iteration. *)
Lemma draw_complete {A} (l l' : list A) :
  l' ≡ₚ l -> exists picks, draw picks l = l'.
Proof.
  revert l. induction l' as [|x l' IH]; intros l Hp.
  - apply Permutation_nil in Hp as ->. now exists [].
  - assert (Hin : x ∈ l) by (rewrite <- Hp; apply list_elem_of_here).
    apply list_elem_of_lookup in Hin as [i Hi].
    assert (Hp' : l' ≡ₚ delete i l).
    { apply (Permutation_cons_inv (a := x)).
      now rewrite Hp, <- (delete_Permutation l i x Hi). }
    destruct (IH _ Hp') as [picks Hpicks].
    assert (Hlen : length l = S (length (delete i l))).
    { pose proof (lookup_lt_Some _ _ _ Hi). rewrite length_delete by eauto. lia. }
    exists (i :: picks). unfold draw in *.
    rewrite Hlen, (draw_n_pick _ i picks l x Hi Hlen). now rewrite Hpicks.
Qed.

(** Without draws the iteration follows the stored order. *)
Lemma draw_stored_order {A} (l : list A) : draw [] l = l.
Proof.
  unfold draw. induction l as [|x l IH]; [reflexivity|].
  cbn [length draw_n].
  change (default 0%nat (head (@nil nat))) with 0%nat.
  change (tail (@nil nat)) with (@nil nat).
  rewrite Nat.Div0.mod_0_l.
  change (delete 0%nat (x :: l)) with l.
  change ((x :: l) !! 0%nat) with (Some x).
  now rewrite IH.
Qed.

(** ** Strings and the classifier *)

(** [contains] is the substring test. *)
Lemma prefix_spec (p s : string) :
  String.prefix p s = true <-> exists t, s = p +:+ t.
Proof.
  revert s. induction p as [|a p IH]; intros s.
  - split; [intros _; exists s; reflexivity | intros _; now destruct s].
  - destruct s as [|b s]; simpl.
    + split; [discriminate | intros [t Ht]; discriminate].
    + destruct (Ascii.ascii_dec a b) as [->|Hne].
      * rewrite IH. split; intros [t Ht]; exists t; [now rewrite Ht | now inversion Ht].
      * split; [discriminate | intros [t Ht]; inversion Ht; congruence].
Qed.

Lemma contains_unfold (p s : string) :
  contains p s
  = String.prefix p s
    || match s with EmptyString => false | String _ s' => contains p s' end.
Proof. destruct s; cbn [contains]; now destruct (String.prefix p _). Qed.

Lemma contains_spec (p s : string) :
  contains p s = true <-> exists a c, s = a +:+ p +:+ c.
Proof.
  induction s as [|ch s IH]; rewrite contains_unfold, orb_true_iff, prefix_spec.
  - split.
    + intros [[t Ht]|Hf]; [exists "", t; exact Ht | discriminate].
    + intros (a & c & H). left. destruct a; [|discriminate]. now exists c.
  - rewrite IH. split.
    + intros [[t Ht]|(a & c & ->)]; [exists "", t; exact Ht|].
      exists (String ch a), c. reflexivity.
    + intros (a & c & H). destruct a as [|ch' a].
      * left. now exists c.
      * right. inversion H. eauto.
Qed.

(** The nested loops append, for each flow in turn, one copy of its key per
    matching pattern. *)
Lemma classify_flow_app (patterns : list string) (acc : list Key) (ef : dataset) :
  classify_flow patterns acc ef
  = acc ++ repeat (key ef) (length (matching patterns ef)).
Proof.
  unfold classify_flow, matching. revert acc.
  induction patterns as [|pat pats IH]; intros acc; simpl.
  - now rewrite app_nil_r.
  - destruct (contains pat (name ef)); simpl; rewrite IH; [|reflexivity].
    now rewrite <- app_assoc.
Qed.

Lemma classify_flat_map (flows : list dataset) (patterns : list string) :
  classify flows patterns
  = flat_map (fun ef => repeat (key ef) (length (matching patterns ef))) flows.
Proof.
  unfold classify.
  enough (H : forall acc, fold_left (classify_flow patterns) flows acc
    = acc ++ flat_map (fun ef => repeat (key ef) (length (matching patterns ef))) flows)
    by apply (H []).
  induction flows as [|ef flows IH]; intros acc; simpl.
  - now rewrite app_nil_r.
  - rewrite IH, classify_flow_app. now rewrite <- app_assoc.
Qed.

Lemma classify_In (flows : list dataset) (patterns : list string) (k : Key) :
  In k (classify flows patterns) <->
  exists ef pat, In ef flows /\ key ef = k /\ In pat patterns /\
                 contains pat (name ef) = true.
Proof.
  rewrite classify_flat_map, in_flat_map. split.
  - intros (ef & Hef & Hk). apply repeat_spec in Hk as Hk'.
    destruct (matching patterns ef) as [|pat l] eqn:Hm; [destruct Hk|].
    assert (Hp : In pat (matching patterns ef)) by (rewrite Hm; now left).
    apply filter_In in Hp as [Hp Hc]. exists ef, pat. auto.
  - intros (ef & pat & Hef & Hk & Hp & Hc). exists ef. split; [exact Hef|].
    assert (Hin : In pat (matching patterns ef)) by (apply filter_In; auto).
    destruct (matching patterns ef); [destruct Hin|]. simpl. now left.
Qed.

Lemma classify_count (flows : list dataset) (patterns : list string) (ef : dataset) :
  NoDup (map key flows) -> In ef flows ->
  count_occ (fun x y : Key => decide (x = y)) (classify flows patterns) (key ef)
  = length (matching patterns ef).
Proof.
  rewrite classify_flat_map. induction flows as [|d flows IH]; simpl.
  - intros _ [].
  - intros Hnd Hin. apply NoDup_cons in Hnd as [Hd Hnd].
    rewrite count_occ_app. destruct Hin as [->|Hin].
    + rewrite count_occ_repeat_eq by reflexivity.
      enough (H : count_occ (fun x y : Key => decide (x = y))
                (flat_map (fun ef0 => repeat (key ef0) (length (matching patterns ef0))) flows)
                (key ef) = 0%nat) by (rewrite H; lia).
      apply count_occ_not_In. intros Hk. apply in_flat_map in Hk as (d & Hdin & Hk).
      apply repeat_spec in Hk. apply Hd. rewrite Hk.
      apply list_elem_of_In, in_map, Hdin.
    + rewrite count_occ_repeat_neq, IH; auto.
      intros Heq. apply Hd. rewrite <- Heq.
      apply list_elem_of_In, in_map, Hin.
Qed.

(** ** Construction *)

(** C3: after a successful construction [all_land_keys] is [land_in_keys]
    followed by [land_out_keys], for any pattern sequences; so its length is
    the sum of the two lengths. *)
Theorem all_land_keys_is_concatenation
    (env : project) (order_from order_to : order) (db bio grp : string)
    (froms tos : list string) (out : list event) (self : DatabaseLandBalancer) :
  init env order_from order_to db bio grp froms tos = (out, Ok self) ->
  all_land_keys self = land_in_keys self ++ land_out_keys self /\
  length (all_land_keys self)
  = (length (land_in_keys self) + length (land_out_keys self))%nat.
Proof.
  unfold init. intros H.
  destruct (env !! db); [|discriminate].
  destruct (env !! bio); [|discriminate].
  injection H as _ <-. simpl. split; [reflexivity | apply length_app].
Qed.

Lemma draw_In {A} (picks : order) (l : list A) (x : A) :
  In x (draw picks l) <-> In x l.
Proof.
  split; apply Permutation_in;
    [apply draw_Permutation | symmetry; apply draw_Permutation].
Qed.

Lemma draw_NoDup_keys (picks : order) (flows : list dataset) :
  NoDup (map key flows) -> NoDup (map key (draw picks flows)).
Proof.
  intros H. eapply NoDup_Permutation_proper; [|exact H].
  apply Permutation_map, draw_Permutation.
Qed.

(** C4: each of the two loops runs its own iteration over the biosphere,
    which visits every stored flow once, in the order of that iteration.
    [land_in_keys] (resp. [land_out_keys]) lists, flow after flow in the order
    of the first (resp. second) iteration, the key of each flow once per
    "from" (resp. "to") pattern that occurs in its name.  So a key is listed
    exactly when the name of its flow contains one of the patterns, and a
    flow of a registry with distinct keys is listed as many times as patterns
    match: twice when two do. *)
Theorem classifier_lists_one_key_per_match
    (env : project) (order_from order_to : order) (db bio grp : string)
    (froms tos : list string) (out : list event) (self : DatabaseLandBalancer) :
  init env order_from order_to db bio grp froms tos = (out, Ok self) ->
  let stored := Database env bio in
  let listing flows patterns :=
    flat_map (fun ef => repeat (key ef) (length (matching patterns ef))) flows in
  let listed patterns k :=
    exists ef pat, In ef stored /\ key ef = k /\ In pat patterns /\
                   exists a c, name ef = a +:+ pat +:+ c in
  (draw order_from stored ≡ₚ stored /\ draw order_to stored ≡ₚ stored) /\
  (land_in_keys self = listing (draw order_from stored) froms /\
   land_out_keys self = listing (draw order_to stored) tos) /\
  (forall k, (In k (land_in_keys self) <-> listed froms k) /\
             (In k (land_out_keys self) <-> listed tos k)) /\
  (forall ef, NoDup (map key stored) -> In ef stored ->
     count_occ (fun x y : Key => decide (x = y)) (land_in_keys self) (key ef)
     = length (matching froms ef) /\
     count_occ (fun x y : Key => decide (x = y)) (land_out_keys self) (key ef)
     = length (matching tos ef)).
Proof.
  unfold init. intros H.
  destruct (env !! db); [|discriminate].
  destruct (env !! bio) eqn:Hbio; [|discriminate].
  injection H as _ <-. cbv zeta. cbn [land_in_keys land_out_keys].
  assert (Hlisted : forall picks patterns k,
    In k (classify (draw picks (Database env bio)) patterns) <->
    exists ef pat, In ef (Database env bio) /\ key ef = k /\ In pat patterns /\
                   exists a c, name ef = a +:+ pat +:+ c).
  { intros picks patterns k. rewrite classify_In. split.
    - intros (ef & pat & Hef & ? & ? & Hc).
      apply draw_In in Hef. apply contains_spec in Hc. eauto 10.
    - intros (ef & pat & Hef & ? & ? & Hc).
      apply (draw_In picks) in Hef. apply contains_spec in Hc. eauto 10. }
  split; [split; apply draw_Permutation|].
  split; [split; apply classify_flat_map|].
  split; [intros k; split; apply Hlisted|].
  intros ef Hnd Hef.
  split; apply classify_count;
    solve [now apply draw_NoDup_keys | now apply draw_In].
Qed.

(** C5: a database name missing from the project, or a biosphere name missing
    from it, makes [__init__] raise a [ValueError] naming the database, after
    the first progress line only and without an object; a construction that
    succeeds (which it does when both names are present) starts with
    [matrix_indices == []] and [matrix_samples is None]. *)
Theorem init_checks_both_databases
    (env : project) (order_from order_to : order) (db bio grp : string)
    (froms tos : list string) :
  (env !! db = None ->
   init env order_from order_to db bio grp froms tos
   = ([Print "Validating data"],
      Raise (ValueError ("Database " +:+ db +:+ " not imported")))) /\
  (env !! bio = None -> is_Some (env !! db) ->
   init env order_from order_to db bio grp froms tos
   = ([Print "Validating data"],
      Raise (ValueError ("Database " +:+ bio +:+ " not imported")))) /\
  (is_Some (env !! db) -> is_Some (env !! bio) ->
   exists self, snd (init env order_from order_to db bio grp froms tos) = Ok self) /\
  (forall out self,
   init env order_from order_to db bio grp froms tos = (out, Ok self) ->
   matrix_indices self = [] /\ matrix_samples self = None).
Proof.
  unfold init. split; [|split; [|split]].
  - intros ->. reflexivity.
  - intros -> [x ->]. reflexivity.
  - intros [x ->] [y ->]. eexists. reflexivity.
  - intros out self. destruct (env !! db); [|discriminate].
    destruct (env !! bio); [|discriminate].
    intros H. injection H as _ <-. split; reflexivity.
Qed.

(** ** Running methods *)

Lemma bind_Ok {A B} (m : M A) (k : A -> M B) (s : DatabaseLandBalancer) (a : A) :
  value (m s) = Ok a ->
  bind m k s
  = Outcome (final (k a (final (m s))))
            (emitted (m s) ++ emitted (k a (final (m s))))
            (value (k a (final (m s)))).
Proof. unfold bind. intros ->. reflexivity. Qed.

Lemma bind_Raise {A B} (m : M A) (k : A -> M B) (s : DatabaseLandBalancer) (e : pyexn) :
  value (m s) = Raise e ->
  bind m k s = Outcome (final (m s)) (emitted (m s)) (Raise e).
Proof. unfold bind. intros ->. reflexivity. Qed.

Lemma with_matrix_indices_id (s : DatabaseLandBalancer) :
  with_matrix_indices s (matrix_indices s) = s.
Proof. now destruct s. Qed.

Lemma with_matrix_indices_twice (s : DatabaseLandBalancer) (l l' : list index_entry) :
  with_matrix_indices (with_matrix_indices s l) l' = with_matrix_indices s l'.
Proof. reflexivity. Qed.

Lemma same_configuration_refl (s : DatabaseLandBalancer) : same_configuration s s.
Proof. now repeat split. Qed.

Lemma same_configuration_trans (s1 s2 s3 : DatabaseLandBalancer) :
  same_configuration s1 s2 -> same_configuration s2 s3 -> same_configuration s1 s3.
Proof.
  unfold same_configuration.
  intros (? & ? & ? & ? & ? & ?) (? & ? & ? & ? & ? & ?).
  repeat split; congruence.
Qed.

(** *** The index step *)

Lemma tag_row_long (row : index_entry) (s : DatabaseLandBalancer) :
  (2 <= length row)%nat ->
  tag_row row s
  = Outcome (with_matrix_indices s (matrix_indices s ++ [take 2 row ++ [FStr "biosphere"]]))
            [] (Ok tt).
Proof.
  destruct row as [|r0 [|r1 row]]; simpl; try lia. intros _. reflexivity.
Qed.

Lemma tag_row_short (row : index_entry) (s : DatabaseLandBalancer) :
  (length row < 2)%nat ->
  tag_row row s = Outcome s [] (Raise (IndexError "tuple index out of range")).
Proof.
  destruct row as [|r0 [|r1 row]]; simpl; try lia; intros _; reflexivity.
Qed.

(** The tagging loop appends the tagged rows up to the first short one. *)
Lemma tag_rows_run (idx : list index_entry) (s : DatabaseLandBalancer)
    (l : list index_entry) :
  let o := for_each idx tag_row (with_matrix_indices s l) in
  emitted o = [] /\
  (exists ext, final o = with_matrix_indices s (l ++ ext)) /\
  (value o = Ok tt ->
   final o
   = with_matrix_indices s (l ++ map (fun row => take 2 row ++ [FStr "biosphere"]) idx)).
Proof.
  revert l. induction idx as [|row idx IH]; intros l; cbn [for_each].
  - unfold ret; cbn [emitted final value map]. split; [reflexivity|].
    split; [exists [] | intros _]; now rewrite app_nil_r.
  - destruct (le_lt_dec 2 (length row)) as [Hlen|Hlen].
    + rewrite (bind_Ok _ _ _ tt) by (now rewrite tag_row_long).
      rewrite tag_row_long by exact Hlen. cbn [emitted final value].
      rewrite with_matrix_indices_twice.
      change (matrix_indices (with_matrix_indices s l)) with l.
      specialize (IH (l ++ [take 2 row ++ [FStr "biosphere"]])).
      cbv zeta in IH. destruct IH as (He & [ext Hf] & Hv).
      split; [now rewrite He|]. split.
      * exists ((take 2 row ++ [FStr "biosphere"]) :: ext).
        rewrite Hf. now rewrite <- app_assoc.
      * intros Hok. rewrite (Hv Hok). cbn [map]. now rewrite <- app_assoc.
    + rewrite (bind_Raise _ _ _ (IndexError "tuple index out of range"))
        by (now rewrite tag_row_short).
      rewrite tag_row_short by exact Hlen. cbn [emitted final value].
      split; [reflexivity|]. split; [exists []; now rewrite app_nil_r | discriminate].
Qed.

Lemma add_indices_run (idx : list index_entry) (s : DatabaseLandBalancer) :
  let o := add_indices idx s in
  emitted o = [] /\
  (exists ext, final o = with_matrix_indices s (matrix_indices s ++ ext)) /\
  (value o = Ok tt ->
   idx <> [] /\ final o = with_matrix_indices s (matrix_indices s ++ appended idx)).
Proof.
  unfold add_indices, appended. destruct idx as [|first idx]; simpl.
  - split; [reflexivity|].
    split; [exists []; now rewrite app_nil_r, with_matrix_indices_id | discriminate].
  - destruct (decide (length first = 2%nat)) as [H2|H2].
    + pose proof (tag_rows_run (first :: idx) s (matrix_indices s)) as H.
      rewrite with_matrix_indices_id in H. simpl in H.
      destruct H as (He & Hf & Hv). split; [exact He|]. split; [exact Hf|].
      intros Hok. split; [discriminate | exact (Hv Hok)].
    + split; [reflexivity|]. split; [now exists (first :: idx)|].
      intros _. split; [discriminate | reflexivity].
Qed.

Lemma length_appended (idx : list index_entry) : length (appended idx) = length idx.
Proof.
  unfold appended. destruct idx as [|first idx]; [reflexivity|].
  destruct (decide _); [apply length_map | reflexivity].
Qed.

Lemma normalized_pair (e : index_entry) :
  length e = 2%nat -> normalized e = take 2 e ++ [FStr "biosphere"].
Proof.
  intros H. unfold normalized. rewrite decide_True by exact H.
  now rewrite firstn_all2 by lia.
Qed.

Lemma normalized_triple (e : index_entry) : length e = 3%nat -> normalized e = e.
Proof. intros H. unfold normalized. now rewrite decide_False by lia. Qed.

(** On a block of one shape, the block-level dispatch agrees with the
    tuple-level normal form. *)
Lemma appended_uniform (idx : list index_entry) :
  Forall (fun e => length e = 2%nat) idx \/ Forall (fun e => length e = 3%nat) idx ->
  appended idx = map normalized idx.
Proof.
  unfold appended. destruct idx as [|first idx]; [reflexivity|].
  intros [H|H].
  - rewrite decide_True by (now inversion H).
    apply map_ext_Forall. eapply Forall_impl; [exact H|].
    intros e He. symmetry. now apply normalized_pair.
  - rewrite decide_False by (inversion H; lia).
    rewrite <- (map_id (first :: idx)) at 1.
    apply map_ext_Forall. eapply Forall_impl; [exact H|].
    intros e He. symmetry. now apply normalized_triple.
Qed.

Lemma outcome_eq {A} (o : outcome A) (f : DatabaseLandBalancer) (e : list event)
    (v : result A) :
  final o = f -> emitted o = e -> value o = v -> o = Outcome f e v.
Proof. destruct o; cbn. now intros -> -> ->. Qed.

Lemma tag_rows_succeed (idx : list index_entry) (s : DatabaseLandBalancer) :
  Forall (fun e => (2 <= length e)%nat) idx -> value (for_each idx tag_row s) = Ok tt.
Proof.
  intros H. revert s. induction H as [|row idx Hrow _ IH]; intros s; cbn [for_each].
  - reflexivity.
  - rewrite (bind_Ok _ _ _ tt) by (now rewrite tag_row_long).
    cbn [value]. apply IH.
Qed.

Lemma add_indices_empty (s : DatabaseLandBalancer) :
  add_indices [] s = Outcome s [] (Raise (IndexError "list index out of range")).
Proof. reflexivity. Qed.

(** A non-empty block of pairs only, or of triples only, is appended in its
    normal form; nothing is emitted and nothing raised. *)
Lemma add_indices_uniform (idx : list index_entry) (s : DatabaseLandBalancer) :
  idx <> [] ->
  Forall (fun e => length e = 2%nat) idx \/ Forall (fun e => length e = 3%nat) idx ->
  add_indices idx s
  = Outcome (with_matrix_indices s (matrix_indices s ++ map normalized idx)) [] (Ok tt).
Proof.
  intros Hne Hshape.
  destruct (add_indices_run idx s) as (He & _ & Hv).
  assert (Hok : value (add_indices idx s) = Ok tt).
  { unfold add_indices. destruct idx as [|first idx]; [congruence|].
    change ((first :: idx) !! 0%nat) with (Some first). cbv beta iota.
    destruct (decide (length first = 2%nat)) as [H2|H2]; [|reflexivity].
    apply tag_rows_succeed. destruct Hshape as [H|H].
    - eapply Forall_impl; [exact H|]. cbn. intros; lia.
    - inversion H; lia. }
  apply outcome_eq; [|exact He|exact Hok].
  destruct (Hv Hok) as [_ ->]. now rewrite appended_uniform.
Qed.

Lemma appended_uniform_blocks (ys : list (ndarray * list index_entry)) :
  Forall (fun d => Forall (fun e => length e = 2%nat) (snd d) \/
                   Forall (fun e => length e = 3%nat) (snd d)) ys ->
  flat_map (fun d => appended (snd d)) ys = flat_map (fun d => map normalized (snd d)) ys.
Proof.
  induction 1 as [|d ys Hd _ IH]; [reflexivity|].
  cbn [flat_map]. rewrite IH, appended_uniform by exact Hd. reflexivity.
Qed.

(** *** The matrix step *)

Lemma add_block_first (blk : ndarray) (s : DatabaseLandBalancer) :
  matrix_samples s = None ->
  add_block blk s = Outcome (with_matrix_samples s blk) [] (Ok tt).
Proof. unfold add_block, bind. simpl. intros ->. reflexivity. Qed.

Lemma add_block_stack (blk m : ndarray) (s : DatabaseLandBalancer) :
  matrix_samples s = Some m -> ncols m = ncols blk ->
  add_block blk s
  = Outcome (with_matrix_samples s {| ncols := ncols m; rows := rows m ++ rows blk |})
            [] (Ok tt).
Proof.
  unfold add_block, bind, np_concatenate. simpl. intros -> H.
  rewrite decide_True by exact H. reflexivity.
Qed.

Lemma add_block_mismatch (blk m : ndarray) (s : DatabaseLandBalancer) :
  matrix_samples s = Some m -> ncols m <> ncols blk ->
  add_block blk s = Outcome s [] (Raise concatenate_mismatch).
Proof.
  unfold add_block, bind, np_concatenate. simpl. intros -> H.
  rewrite decide_False by exact H. reflexivity.
Qed.

(** Whatever happens, the step emits nothing, keeps the configuration and
    the index list, and leaves a set matrix set; when it succeeds the rows of
    the block are the new last rows. *)
Lemma add_block_run (blk : ndarray) (s : DatabaseLandBalancer) :
  let o := add_block blk s in
  emitted o = [] /\
  same_configuration s (final o) /\
  matrix_indices (final o) = matrix_indices s /\
  (value o = Ok tt ->
   is_Some (matrix_samples (final o)) /\
   rows_of (matrix_samples (final o)) = rows_of (matrix_samples s) ++ rows blk) /\
  (value o <> Ok tt -> final o = s).
Proof.
  cbv zeta. destruct (matrix_samples s) as [m|] eqn:Hm.
  - destruct (decide (ncols m = ncols blk)) as [Hc|Hc].
    + rewrite (add_block_stack blk m s Hm Hc). cbn [emitted final value].
      split; [reflexivity|]. split; [now repeat split|].
      split; [reflexivity|]. split; [intros _ | intros H; now elim H].
      cbn. eauto.
    + rewrite (add_block_mismatch blk m s Hm Hc). cbn [emitted final value].
      split; [reflexivity|]. split; [apply same_configuration_refl|].
      split; [reflexivity|]. split; [discriminate | reflexivity].
  - rewrite (add_block_first blk s Hm). cbn [emitted final value].
    split; [reflexivity|]. split; [now repeat split|].
    split; [reflexivity|]. split; [intros _ | intros H; now elim H].
    cbn. eauto.
Qed.

(** *** One yielded pair, a whole trace, a whole call *)

Lemma add_data_run (data : ndarray * list index_entry) (s : DatabaseLandBalancer) :
  let o := add_data data s in
  emitted o = [] /\
  same_configuration s (final o) /\
  (exists ext, matrix_indices (final o) = matrix_indices s ++ ext) /\
  (exists dr, rows_of (matrix_samples (final o)) = rows_of (matrix_samples s) ++ dr) /\
  (value o = Ok tt ->
   snd data <> [] /\
   is_Some (matrix_samples (final o)) /\
   matrix_indices (final o) = matrix_indices s ++ appended (snd data) /\
   rows_of (matrix_samples (final o)) = rows_of (matrix_samples s) ++ rows (fst data)).
Proof.
  cbv zeta. unfold add_data.
  destruct (add_indices_run (snd data) s) as (Hie & [ext Hif] & Hiv).
  destruct (value (add_indices (snd data) s)) as [[]|e] eqn:Hv.
  - rewrite (bind_Ok _ _ _ tt Hv). cbn [emitted final value].
    destruct (add_block_run (fst data) (final (add_indices (snd data) s)))
      as (Hbe & Hbc & Hbi & Hbv & _).
    destruct (Hiv eq_refl) as [Hne Hfin].
    rewrite Hie, Hbe. split; [reflexivity|].
    split; [eapply same_configuration_trans; [|exact Hbc]; rewrite Hif; now repeat split|].
    split; [exists ext; now rewrite Hbi, Hif|].
    split.
    + destruct (value (add_block (fst data) (final (add_indices (snd data) s))))
        as [[]|e] eqn:Hbv'.
      * destruct (Hbv eq_refl) as [_ Hr]. exists (rows (fst data)).
        rewrite Hr, Hif. reflexivity.
      * destruct (add_block_run (fst data) (final (add_indices (snd data) s)))
          as (_ & _ & _ & _ & Hfail).
        rewrite Hfail by (rewrite Hbv'; discriminate).
        exists []. rewrite Hif, app_nil_r. reflexivity.
    + intros Hok. destruct (Hbv Hok) as [Hs Hr].
      split; [exact Hne|]. split; [exact Hs|].
      split; [now rewrite Hbi, Hfin | now rewrite Hr, Hfin].
  - rewrite (bind_Raise _ _ _ e Hv). cbn [emitted final value].
    split; [exact Hie|]. rewrite Hif.
    split; [now repeat split|]. split; [now exists ext|].
    split; [exists []; now rewrite app_nil_r | discriminate].
Qed.

Lemma consume_run (ys : list (ndarray * list index_entry)) (s : DatabaseLandBalancer) :
  let o := for_each ys add_data s in
  emitted o = [] /\
  same_configuration s (final o) /\
  (exists ext, matrix_indices (final o) = matrix_indices s ++ ext) /\
  (exists dr, rows_of (matrix_samples (final o)) = rows_of (matrix_samples s) ++ dr) /\
  (value o = Ok tt ->
   Forall (fun d => snd d <> []) ys /\
   (ys <> [] -> is_Some (matrix_samples (final o))) /\
   matrix_indices (final o)
   = matrix_indices s ++ flat_map (fun d => appended (snd d)) ys /\
   rows_of (matrix_samples (final o))
   = rows_of (matrix_samples s) ++ flat_map (fun d => rows (fst d)) ys).
Proof.
  revert s. induction ys as [|d ys IH]; intros s; cbn [for_each flat_map].
  - unfold ret; cbn [emitted final value].
    split; [reflexivity|]. split; [apply same_configuration_refl|].
    split; [exists []; now rewrite app_nil_r|].
    split; [exists []; now rewrite app_nil_r|].
    intros _. split; [constructor|]. split; [congruence|].
    now rewrite !app_nil_r.
  - destruct (add_data_run d s) as (Hde & Hdc & [ext Hdi] & [dr Hdr] & Hdv).
    destruct (value (add_data d s)) as [[]|e] eqn:Hv.
    + rewrite (bind_Ok _ _ _ tt Hv). cbn [emitted final value].
      destruct (IH (final (add_data d s))) as (He & Hc & [ext' Hi] & [dr' Hr] & Hok).
      rewrite Hde, He. split; [reflexivity|].
      split; [eapply same_configuration_trans; eassumption|].
      split; [exists (ext ++ ext'); now rewrite Hi, Hdi, app_assoc|].
      split; [exists (dr ++ dr'); now rewrite Hr, Hdr, app_assoc|].
      intros Hall. destruct (Hok Hall) as (Hne & Hsome & Hi' & Hr').
      destruct (Hdv eq_refl) as (Hdne & Hdsome & Hdi' & Hdr').
      split; [now constructor|]. split.
      * intros _. destruct ys as [|d' ys]; [exact Hdsome | now apply Hsome].
      * split; [now rewrite Hi', Hdi', app_assoc | now rewrite Hr', Hdr', app_assoc].
    + rewrite (bind_Raise _ _ _ e Hv). cbn [emitted final value].
      split; [exact Hde|]. split; [exact Hdc|].
      split; [now exists ext|]. split; [now exists dr | discriminate].
Qed.

Lemma add_samples_for_act_run (act : act_arg) (iterations : Z)
    (s : DatabaseLandBalancer) :
  let g := generate_samples act s iterations in
  let c := for_each (yields g) add_data s in
  let o := add_samples_for_act act iterations s in
  emitted o = [Resample act iterations] /\
  final o = final c /\
  value o = match value c, raised g with
            | Ok _, None => Ok tt
            | Ok _, Some e => Raise e
            | Raise e, _ => Raise e
            end.
Proof.
  cbv zeta. destruct (consume_run (yields (generate_samples act s iterations)) s)
    as (He & _).
  unfold add_samples_for_act, for_generated, bind, get_self, emit, raise, ret.
  cbn [emitted final value]. rewrite He.
  destruct (value (for_each _ add_data s)) as [[]|e]; cbn [emitted final value].
  - destruct (raised _); cbn [emitted final value]; repeat split.
  - repeat split.
Qed.

(** *** Sequences of calls *)

Lemma bind_assoc {A B C} (m : M A) (k : A -> M B) (h : B -> M C)
    (s : DatabaseLandBalancer) :
  bind (bind m k) h s = bind m (fun a => bind (k a) h) s.
Proof.
  unfold bind. destruct (value (m s)) as [a|e]; cbn [emitted final value];
    [|reflexivity].
  destruct (value (k a (final (m s)))) as [b|e]; cbn [emitted final value];
    [|reflexivity].
  now rewrite app_assoc.
Qed.

Lemma bind_ext {A B} (m : M A) (k k' : A -> M B) (s : DatabaseLandBalancer) :
  (forall a s', k a s' = k' a s') -> bind m k s = bind m k' s.
Proof. intros H. unfold bind. destruct (value (m s)); [now rewrite H | reflexivity]. Qed.

Lemma for_each_app {A} (l1 l2 : list A) (body : A -> M unit)
    (s : DatabaseLandBalancer) :
  for_each (l1 ++ l2) body s
  = bind (for_each l1 body) (fun _ => for_each l2 body) s.
Proof.
  revert s. induction l1 as [|x l1 IH]; intros s; cbn [for_each app].
  - unfold bind, ret. cbn [emitted final value app].
    now destruct (for_each l2 body s).
  - rewrite bind_assoc. apply bind_ext. intros _ s'. apply IH.
Qed.

Lemma run_calls_run (calls : list (act_arg * Z)) (s : DatabaseLandBalancer) :
  let o := run_calls calls s in
  same_configuration s (final o) /\
  (exists ext, matrix_indices (final o) = matrix_indices s ++ ext) /\
  (exists dr, rows_of (matrix_samples (final o)) = rows_of (matrix_samples s) ++ dr) /\
  (value o = Ok tt ->
   emitted o = map (fun c => Resample (fst c) (snd c)) calls /\
   matrix_indices (final o)
   = matrix_indices s ++ flat_map (fun d => appended (snd d)) (blocks_yielded calls s) /\
   rows_of (matrix_samples (final o))
   = rows_of (matrix_samples s)
     ++ flat_map (fun d => rows (fst d)) (blocks_yielded calls s)).
Proof.
  unfold run_calls. revert s.
  induction calls as [|[act it] calls IH]; intros s;
    cbn [for_each blocks_yielded fst snd map].
  - unfold ret; cbn [emitted final value flat_map].
    split; [apply same_configuration_refl|].
    split; [exists []; now rewrite app_nil_r|].
    split; [exists []; now rewrite app_nil_r|].
    intros _. now rewrite !app_nil_r.
  - destruct (add_samples_for_act_run act it s) as (Hae & Haf & Hav).
    destruct (consume_run (yields (generate_samples act s it)) s)
      as (_ & Hcc & [ext Hci] & [dr Hcr] & Hcv).
    rewrite <- Haf in Hcc, Hci, Hcr, Hcv.
    destruct (value (add_samples_for_act act it s)) as [[]|e] eqn:Hv.
    + rewrite (bind_Ok _ _ _ tt Hv). cbn [emitted final value].
      destruct (IH (final (add_samples_for_act act it s)))
        as (Hc & [ext' Hi] & [dr' Hr] & Hok).
      split; [eapply same_configuration_trans; eassumption|].
      split; [exists (ext ++ ext'); now rewrite Hi, Hci, app_assoc|].
      split; [exists (dr ++ dr'); now rewrite Hr, Hcr, app_assoc|].
      intros Hall. destruct (Hok Hall) as (He' & Hi' & Hr').
      assert (Hcok : value (for_each (yields (generate_samples act s it)) add_data s)
                     = Ok tt).
      { destruct (value (for_each _ add_data s)) as [[]|e]; [reflexivity|].
        discriminate Hav. }
      destruct (Hcv Hcok) as (_ & _ & Hci' & Hcr').
      rewrite Hae, He', !flat_map_app.
      split; [reflexivity|].
      split; [now rewrite Hi', Hci', app_assoc | now rewrite Hr', Hcr', app_assoc].
    + rewrite (bind_Raise _ _ _ e Hv). cbn [emitted final value].
      split; [exact Hcc|]. split; [now exists ext|].
      split; [now exists dr | discriminate].
Qed.

(** ** Accumulation *)

(** C1: take a balancer as [__init__] leaves it and any run of calls to
    [add_samples_for_act] that all succeed.  The matrix then has as many rows
    as the blocks yielded over the run have together (an unset matrix counts
    as having none); if every yielded index block has one entry per row of
    its numeric block, the index list is as long as the matrix has rows; and
    after each call of the run (every prefix of it succeeds too) the index
    list and the rows are initial segments of the final ones. *)
Theorem accumulation_is_monotonic
    (calls : list (act_arg * Z)) (self : DatabaseLandBalancer) :
  matrix_indices self = [] -> matrix_samples self = None ->
  value (run_calls calls self) = Ok tt ->
  let blocks := blocks_yielded calls self in
  let after := final (run_calls calls self) in
  length (rows_of (matrix_samples after))
  = list_sum (map (fun d => nrows (fst d)) blocks) /\
  (Forall (fun d => length (snd d) = nrows (fst d)) blocks ->
   length (matrix_indices after) = length (rows_of (matrix_samples after))) /\
  (forall before later, calls = before ++ later ->
   let mid := final (run_calls before self) in
   value (run_calls before self) = Ok tt /\
   matrix_indices mid `prefix_of` matrix_indices after /\
   rows_of (matrix_samples mid) `prefix_of` rows_of (matrix_samples after)).
Proof.
  intros Hi0 Hm0 Hok. cbv zeta.
  destruct (run_calls_run calls self) as (_ & _ & _ & Hv).
  destruct (Hv Hok) as (_ & Hi & Hr). rewrite Hi0, Hm0 in *.
  cbn [rows_of app] in *.
  assert (Hrows : forall ys : list (ndarray * list index_entry),
    length (flat_map (fun d => rows (fst d)) ys)
    = list_sum (map (fun d => nrows (fst d)) ys)).
  { induction ys as [|d ys IHys]; [reflexivity|].
    cbn [flat_map map list_sum]. rewrite length_app, IHys. reflexivity. }
  split; [now rewrite Hr, Hrows|]. split.
  - intros Hall. rewrite Hi, Hr. clear -Hall.
    induction Hall as [|d ys Hd _ IH]; [reflexivity|].
    cbn [flat_map]. rewrite !length_app, IH, length_appended, Hd. reflexivity.
  - intros before later ->. unfold run_calls in *.
    rewrite for_each_app in Hok |- *.
    destruct (value (for_each before _ self)) as [[]|e] eqn:Hb.
    + rewrite (bind_Ok _ _ _ tt Hb). cbn [emitted final value].
      split; [reflexivity|].
      destruct (run_calls_run later (final (run_calls before self)))
        as (_ & [ext He] & [dr Hd] & _).
      unfold run_calls in He, Hd. split; [now exists ext | now exists dr].
    + rewrite (bind_Raise _ _ _ e Hb) in Hok. discriminate Hok.
Qed.

(** A block whose width differs from the matrix accumulated when it is
    yielded: its index tuples are appended, then the stacking raises. *)
Lemma mismatched_block_outcome
    (act : act_arg) (iterations : Z) (self : DatabaseLandBalancer)
    (pre post : list (ndarray * list index_entry))
    (blk m : ndarray) (idx : list index_entry) :
  yields (generate_samples act self iterations) = pre ++ (blk, idx) :: post ->
  value (for_each pre add_data self) = Ok tt ->
  matrix_samples (final (for_each pre add_data self)) = Some m ->
  ncols blk <> ncols m ->
  idx <> [] ->
  Forall (fun e => length e = 2%nat) idx \/ Forall (fun e => length e = 3%nat) idx ->
  add_samples_for_act act iterations self
  = Outcome (with_matrix_indices (final (for_each pre add_data self))
               (matrix_indices (final (for_each pre add_data self))
                ++ map normalized idx))
            [Resample act iterations] (Raise concatenate_mismatch).
Proof.
  intros Hy Hpre Hm Hw Hne Hshape.
  set (s := final (for_each pre add_data self)) in *.
  assert (Hd : add_data (blk, idx) s
    = Outcome (with_matrix_indices s (matrix_indices s ++ map normalized idx)) []
              (Raise concatenate_mismatch)).
  { unfold add_data. cbn [fst snd].
    rewrite (bind_Ok _ _ _ tt) by (now rewrite add_indices_uniform).
    rewrite add_indices_uniform by assumption. cbn [emitted final value].
    rewrite (add_block_mismatch blk m) by (cbn; congruence). reflexivity. }
  destruct (add_samples_for_act_run act iterations self) as (He & Hf & Hv).
  rewrite Hy, for_each_app, (bind_Ok _ _ _ tt Hpre) in Hf, Hv.
  cbn [for_each emitted final value] in Hf, Hv. fold s in Hf, Hv.
  rewrite (bind_Raise _ _ _ concatenate_mismatch) in Hf, Hv by (now rewrite Hd).
  rewrite Hd in Hf. cbn [emitted final value] in Hf, Hv.
  now apply outcome_eq.
Qed.

(** C2: a non-empty index block made of 2-element tuples is appended to
    [matrix_indices] as the same tuples, in order, each followed by
    'biosphere'; one made of 3-element tuples is appended unchanged and in
    order.  Whenever a call succeeds on blocks that are each of one of the two
    shapes, the index list has grown by the blocks' tuples in normal form, in
    the order they were yielded. *)
Theorem index_tuples_round_trip
    (act : act_arg) (iterations : Z) (self : DatabaseLandBalancer)
    (idx : list index_entry) :
  (idx <> [] -> Forall (fun e => length e = 2%nat) idx ->
   add_indices idx self
   = Outcome (with_matrix_indices self
                (matrix_indices self ++ map (fun e => e ++ [FStr "biosphere"]) idx))
             [] (Ok tt)) /\
  (idx <> [] -> Forall (fun e => length e = 3%nat) idx ->
   add_indices idx self
   = Outcome (with_matrix_indices self (matrix_indices self ++ idx)) [] (Ok tt)) /\
  (value (add_samples_for_act act iterations self) = Ok tt ->
   Forall (fun d => Forall (fun e => length e = 2%nat) (snd d) \/
                    Forall (fun e => length e = 3%nat) (snd d))
          (yields (generate_samples act self iterations)) ->
   matrix_indices (final (add_samples_for_act act iterations self))
   = matrix_indices self
     ++ flat_map (fun d => map normalized (snd d))
                 (yields (generate_samples act self iterations))).
Proof.
  split; [|split].
  - intros Hne H2. rewrite add_indices_uniform by auto. do 3 f_equal.
    apply map_ext_Forall. eapply Forall_impl; [exact H2|].
    intros e He. unfold normalized. now rewrite decide_True.
  - intros Hne H3. rewrite add_indices_uniform by auto. do 3 f_equal.
    rewrite <- (map_id idx) at 2.
    apply map_ext_Forall. eapply Forall_impl; [exact H3|].
    intros e He. now apply normalized_triple.
  - intros Hok Hshape.
    destruct (add_samples_for_act_run act iterations self) as (_ & Hf & Hv).
    destruct (consume_run (yields (generate_samples act self iterations)) self)
      as (_ & _ & _ & _ & Hc).
    rewrite Hok in Hv. rewrite Hf.
    destruct (value (for_each _ add_data self)) as [[]|e]; [|discriminate Hv].
    destruct (Hc eq_refl) as (_ & _ & -> & _).
    now rewrite appended_uniform_blocks.
Qed.

(** C7: when a call yields a block whose column count differs from that of
    the matrix accumulated so far (the blocks before it were accumulated
    without error, and its own index block is a well-formed one), the call
    ends with the [ValueError] of [np.concatenate], raised to the caller. *)
Theorem width_mismatch_fails_in_concatenate
    (act : act_arg) (iterations : Z) (self : DatabaseLandBalancer)
    (pre post : list (ndarray * list index_entry))
    (blk m : ndarray) (idx : list index_entry) :
  yields (generate_samples act self iterations) = pre ++ (blk, idx) :: post ->
  value (for_each pre add_data self) = Ok tt ->
  matrix_samples (final (for_each pre add_data self)) = Some m ->
  ncols blk <> ncols m ->
  idx <> [] ->
  Forall (fun e => length e = 2%nat) idx \/ Forall (fun e => length e = 3%nat) idx ->
  value (add_samples_for_act act iterations self) = Raise concatenate_mismatch /\
  np_concatenate m blk = Raise concatenate_mismatch.
Proof.
  intros Hy Hpre Hm Hw Hne Hshape.
  rewrite (mismatched_block_outcome act iterations self pre post blk m idx) by assumption.
  split; [reflexivity|]. unfold np_concatenate. now rewrite decide_False by congruence.
Qed.

(** C10: in that situation the call is not undone: the index tuples of the
    offending block are already in [matrix_indices] (in normal form, after
    those of the blocks before it) while [matrix_samples] is still the matrix
    the block could not be stacked on; if the index list was as long as the
    matrix had rows, it is now strictly longer. *)
Theorem failed_concatenation_leaves_indices_ahead
    (act : act_arg) (iterations : Z) (self : DatabaseLandBalancer)
    (pre post : list (ndarray * list index_entry))
    (blk m : ndarray) (idx : list index_entry) :
  yields (generate_samples act self iterations) = pre ++ (blk, idx) :: post ->
  value (for_each pre add_data self) = Ok tt ->
  matrix_samples (final (for_each pre add_data self)) = Some m ->
  ncols blk <> ncols m ->
  idx <> [] ->
  Forall (fun e => length e = 2%nat) idx \/ Forall (fun e => length e = 3%nat) idx ->
  let before := final (for_each pre add_data self) in
  let after := final (add_samples_for_act act iterations self) in
  value (add_samples_for_act act iterations self) = Raise concatenate_mismatch /\
  matrix_indices after = matrix_indices before ++ map normalized idx /\
  matrix_samples after = Some m /\
  (length (matrix_indices before) = nrows m ->
   (length (rows_of (matrix_samples after)) < length (matrix_indices after))%nat).
Proof.
  intros Hy Hpre Hm Hw Hne Hshape. cbv zeta.
  rewrite (mismatched_block_outcome act iterations self pre post blk m idx) by assumption.
  cbn [final value]. split; [reflexivity|]. split; [reflexivity|].
  split; [exact Hm|]. intros Hlen. cbn [matrix_indices with_matrix_indices matrix_samples].
  rewrite Hm, length_app, length_map, Hlen. cbn [rows_of]. unfold nrows.
  destruct idx; [congruence | cbn [length]; lia].
Qed.

(** ** The batch *)

Lemma outcome_eta {A} (o : outcome A) : Outcome (final o) (emitted o) (value o) = o.
Proof. now destruct o. Qed.

Lemma add_samples_for_key_found (env : project) (iterations : Z) (k : Key)
    (a : dataset) (s : DatabaseLandBalancer) :
  get_activity env k = Ok a ->
  add_samples_for_key env iterations k s
  = add_samples_for_act (ByActivity a) iterations s.
Proof.
  intros H. unfold add_samples_for_key, bind, lift. cbn [emitted final value].
  rewrite H. cbn [app]. apply outcome_eta.
Qed.

Lemma add_samples_for_key_missing (env : project) (iterations : Z) (k : Key)
    (e : pyexn) (s : DatabaseLandBalancer) :
  get_activity env k = Raise e ->
  add_samples_for_key env iterations k s = Outcome s [] (Raise e).
Proof.
  intros H. unfold add_samples_for_key, bind, lift. cbn [emitted final value].
  now rewrite H.
Qed.

(** A loop that raises does so at the first element whose body raises. *)
Lemma for_each_first_failure {A} (l : list A) (body : A -> M unit)
    (s : DatabaseLandBalancer) (e : pyexn) :
  value (for_each l body s) = Raise e ->
  exists done x rest,
    l = done ++ x :: rest /\
    value (for_each done body s) = Ok tt /\
    value (body x (final (for_each done body s))) = Raise e.
Proof.
  revert s. induction l as [|x l IH]; intros s; cbn [for_each].
  - discriminate.
  - destruct (value (body x s)) as [[]|e'] eqn:Hx.
    + rewrite (bind_Ok _ _ _ tt Hx). cbn [value]. intros H.
      destruct (IH _ H) as (done & y & rest & -> & Hd & Hy).
      exists (x :: done), y, rest. cbn [for_each app].
      rewrite (bind_Ok _ _ _ tt Hx). cbn [final value]. auto.
    + rewrite (bind_Raise _ _ _ e' Hx). cbn [value]. intros [= ->].
      exists [], x, l. cbn [for_each app]. auto.
Qed.

(** ... and nothing after that element runs. *)
Lemma for_each_abort {A} (done rest : list A) (x : A) (body : A -> M unit)
    (s : DatabaseLandBalancer) (e : pyexn) :
  value (for_each done body s) = Ok tt ->
  value (body x (final (for_each done body s))) = Raise e ->
  for_each (done ++ x :: rest) body s
  = Outcome (final (body x (final (for_each done body s))))
            (emitted (for_each done body s)
             ++ emitted (body x (final (for_each done body s))))
            (Raise e).
Proof.
  intros Hd Hx. rewrite for_each_app, (bind_Ok _ _ _ tt Hd). cbn [for_each].
  now rewrite (bind_Raise _ _ _ e Hx).
Qed.

Lemma add_samples_for_step_found (later : nat -> project) (iterations : Z)
    (step : nat * Key) (a : dataset) (s : DatabaseLandBalancer) :
  get_activity (later (fst step)) (snd step) = Ok a ->
  add_samples_for_step later iterations step s
  = add_samples_for_act (ByActivity a) iterations s.
Proof. apply add_samples_for_key_found. Qed.

Lemma add_samples_for_step_missing (later : nat -> project) (iterations : Z)
    (step : nat * Key) (e : pyexn) (s : DatabaseLandBalancer) :
  get_activity (later (fst step)) (snd step) = Raise e ->
  add_samples_for_step later iterations step s = Outcome s [] (Raise e).
Proof. apply add_samples_for_key_missing. Qed.

Lemma batch_success (later : nat -> project) (iterations : Z)
    (steps : list (nat * Key)) (s : DatabaseLandBalancer) :
  let o := for_each steps (add_samples_for_step later iterations) s in
  value o = Ok tt ->
  exists acts,
    Forall2 (fun step a => get_activity (later (fst step)) (snd step) = Ok a)
            steps acts /\
    emitted o = map (fun a => Resample (ByActivity a) iterations) acts /\
    final o = final (run_calls (map (fun a => (ByActivity a, iterations)) acts) s).
Proof.
  cbv zeta. revert s. induction steps as [|k steps IH]; intros s; cbn [for_each].
  - intros _. exists []. repeat split. constructor.
  - destruct (get_activity (later (fst k)) (snd k)) as [a|e] eqn:Hk.
    + pose proof (add_samples_for_step_found later iterations k a s Hk) as Hb.
      destruct (value (add_samples_for_act (ByActivity a) iterations s))
        as [[]|e] eqn:Hv.
      * rewrite (bind_Ok _ _ _ tt) by (now rewrite Hb).
        rewrite Hb. cbn [emitted final value]. intros Hok.
        destruct (IH _ Hok) as (acts & HF & He & Hf).
        exists (a :: acts). split; [now constructor|].
        destruct (add_samples_for_act_run (ByActivity a) iterations s) as (Hae & _).
        rewrite Hae, He. split; [reflexivity|].
        unfold run_calls. cbn [map for_each fst snd].
        rewrite (bind_Ok _ _ _ tt Hv). cbn [final]. exact Hf.
      * rewrite (bind_Raise _ _ _ e) by (now rewrite Hb). discriminate.
    + rewrite (bind_Raise _ _ _ e)
        by (now rewrite (add_samples_for_step_missing later iterations k e s Hk)).
      discriminate.
Qed.

Lemma prog_bar_empty {A} (body : A -> M unit) (s : DatabaseLandBalancer) :
  prog_bar [] body s = Outcome s [] (Raise AssertionError).
Proof. reflexivity. Qed.

Lemma prog_bar_items {A} (l : list A) (body : A -> M unit) (s : DatabaseLandBalancer) :
  l <> [] -> prog_bar l body s = for_each l body s.
Proof. now destruct l. Qed.

(** The assertion of the progress bar changes nothing in the balancer. *)
Lemma prog_bar_final {A} (l : list A) (body : A -> M unit) (s : DatabaseLandBalancer) :
  final (prog_bar l body s) = final (for_each l body s).
Proof. now destruct l. Qed.

Lemma numbered_snd {A} (i : nat) (l : list A) : map snd (numbered i l) = l.
Proof.
  revert i. induction l as [|x l IH]; intros i; [reflexivity|].
  cbn [numbered map snd]. now rewrite IH.
Qed.

Lemma numbered_fst {A} (i : nat) (l : list A) :
  map fst (numbered i l) = seq i (length l).
Proof.
  revert i. induction l as [|x l IH]; intros i; [reflexivity|].
  cbn [numbered map fst length seq]. now rewrite IH.
Qed.

Lemma numbered_empty {A} (i : nat) (l : list A) : numbered i l = [] <-> l = [].
Proof. now destruct l. Qed.

Lemma add_samples_for_all_acts_unfold (env : project) (picks : order)
    (later : nat -> project) (iterations : Z) (s : DatabaseLandBalancer) :
  add_samples_for_all_acts env picks later iterations s
  = prog_bar (numbered 0 (map key (draw picks (Database env (database_name s)))))
             (add_samples_for_step later iterations) s.
Proof.
  unfold add_samples_for_all_acts, bind, get_self. cbn [emitted final value app].
  apply outcome_eta.
Qed.

Lemma add_samples_for_key_emitted (env : project) (iterations : Z) (k : Key)
    (s : DatabaseLandBalancer) :
  emitted (add_samples_for_key env iterations k s)
  = match get_activity env k with
    | Ok a => [Resample (ByActivity a) iterations]
    | Raise _ => []
    end.
Proof.
  destruct (get_activity env k) as [a|e] eqn:Hk.
  - rewrite (add_samples_for_key_found env iterations k a s Hk).
    apply add_samples_for_act_run.
  - now rewrite (add_samples_for_key_missing env iterations k e s Hk).
Qed.

Lemma add_samples_for_step_emitted (later : nat -> project) (iterations : Z)
    (step : nat * Key) (s : DatabaseLandBalancer) :
  emitted (add_samples_for_step later iterations step s)
  = match get_activity (later (fst step)) (snd step) with
    | Ok a => [Resample (ByActivity a) iterations]
    | Raise _ => []
    end.
Proof. apply add_samples_for_key_emitted. Qed.

(** C8: the keys of the target database are listed once, from the project
    as it is when the call starts: they are the keys of the datasets stored
    then, each once, in the order of that one iteration, and they are handled
    in that order, step [i] looking its key up in the project as it is by
    then.  If there is no key the progress bar refuses to start and nothing
    is handled.  Otherwise a batch that succeeds has resolved every listed
    key and run [add_samples_for_act] exactly once on each activity, in that
    order, each call starting from the state the previous one left.  A batch
    that raises does so with the exception of the first step whose handling
    raises: the steps before it were handled once each, the state is the one
    the failing call left, and no later key is looked up or resampled.
    Conversely the first step whose handling raises ends the batch with that
    exception. *)
Theorem batch_runs_in_order_and_aborts
    (env : project) (picks : order) (later : nat -> project) (iterations : Z)
    (self : DatabaseLandBalancer) :
  let act_keys := map key (draw picks (Database env (database_name self))) in
  let steps := numbered 0 act_keys in
  let handle := add_samples_for_step later iterations in
  let o := add_samples_for_all_acts env picks later iterations self in
  (act_keys ≡ₚ map key (Database env (database_name self)) /\
   map snd steps = act_keys /\ map fst steps = seq 0 (length act_keys)) /\
  (act_keys = [] -> o = Outcome self [] (Raise AssertionError)) /\
  (value o = Ok tt ->
   exists acts,
     Forall2 (fun step a => get_activity (later (fst step)) (snd step) = Ok a)
             steps acts /\
     emitted o = map (fun a => Resample (ByActivity a) iterations) acts /\
     final o = final (run_calls (map (fun a => (ByActivity a, iterations)) acts) self)) /\
  (forall e, value o = Raise e ->
   (act_keys = [] /\ e = AssertionError) \/
   exists done step rest acts,
     steps = done ++ step :: rest /\
     Forall2 (fun step a => get_activity (later (fst step)) (snd step) = Ok a)
             done acts /\
     value (for_each done handle self) = Ok tt /\
     value (handle step (final (for_each done handle self))) = Raise e /\
     final o = final (handle step (final (for_each done handle self))) /\
     emitted o
     = map (fun a => Resample (ByActivity a) iterations) acts
       ++ match get_activity (later (fst step)) (snd step) with
          | Ok a => [Resample (ByActivity a) iterations]
          | Raise _ => []
          end) /\
  (forall done step rest e,
   steps = done ++ step :: rest ->
   value (for_each done handle self) = Ok tt ->
   value (handle step (final (for_each done handle self))) = Raise e ->
   o = Outcome (final (handle step (final (for_each done handle self))))
               (emitted (for_each done handle self)
                ++ emitted (handle step (final (for_each done handle self))))
               (Raise e)).
Proof.
  cbv zeta. rewrite add_samples_for_all_acts_unfold.
  set (act_keys := map key (draw picks (Database env (database_name self)))).
  split; [|split; [|split; [|split]]].
  - split; [apply Permutation_map, draw_Permutation|].
    split; [apply numbered_snd | apply numbered_fst].
  - intros ->. reflexivity.
  - destruct act_keys as [|k keys] eqn:Hkeys; [discriminate|].
    rewrite prog_bar_items by discriminate. apply batch_success.
  - intros e He. destruct act_keys as [|k keys] eqn:Hkeys.
    + left. split; [reflexivity|]. now injection He as <-.
    + right. rewrite prog_bar_items in He |- * by discriminate.
      destruct (for_each_first_failure _ _ _ _ He)
        as (done & step & rest & Hsplit & Hd & Hk).
      destruct (batch_success later iterations done self Hd) as (acts & HF & Hem & _).
      exists done, step, rest, acts. rewrite Hsplit.
      rewrite (for_each_abort done rest step _ self e Hd Hk). cbn [final emitted].
      rewrite Hem, add_samples_for_step_emitted. auto 10.
  - intros done step rest e Hsplit. rewrite prog_bar_items, Hsplit.
    + apply for_each_abort.
    + rewrite Hsplit. now destruct done.
Qed.

(** ** Export *)

Lemma create_presamples_no_data (store : package_store)
    (pkg_name pkg_id : option string) (overwrite : bool)
    (dirpath : option string) (seed : seed_policy) (s : DatabaseLandBalancer) :
  matrix_samples s = None \/ matrix_indices s = [] ->
  create_presamples store pkg_name pkg_id overwrite dirpath seed s
  = Outcome s [Warn no_data_warning] (Ok None).
Proof.
  unfold create_presamples, bind, get_self. cbn [emitted final value].
  intros [H|H]; rewrite H.
  - reflexivity.
  - destruct (matrix_samples s); reflexivity.
Qed.

Lemma create_presamples_with_data (store : package_store)
    (pkg_name pkg_id : option string) (overwrite : bool)
    (dirpath : option string) (seed : seed_policy) (s : DatabaseLandBalancer) :
  is_Some (matrix_samples s) -> matrix_indices s <> [] ->
  create_presamples store pkg_name pkg_id overwrite dirpath seed s
  = match split_inventory_presamples (matrix_samples s) (matrix_indices s) with
    | Raise e => Outcome s [] (Raise e)
    | Ok md =>
      match create_presamples_package store md pkg_name pkg_id overwrite dirpath seed with
      | Raise e =>
        Outcome s [WritePackage pkg_name pkg_id overwrite dirpath seed] (Raise e)
      | Ok written =>
        Outcome s [WritePackage pkg_name pkg_id overwrite dirpath seed;
                   Print ("Presamples with id_ " +:+ fst written
                          +:+ " written at " +:+ snd written)]
                (Ok (Some written))
      end
    end.
Proof.
  unfold create_presamples, bind, get_self, lift, emit, ret.
  cbn [emitted final value]. intros [m ->] Hi.
  destruct (matrix_indices s) as [|i l] eqn:Hl; [congruence|].
  cbn [is_not_None truthy forallb id negb andb].
  destruct (split_inventory_presamples (Some m) (i :: l)) as [md|e];
    cbn [emitted final value]; [|reflexivity].
  destruct (create_presamples_package store md pkg_name pkg_id overwrite dirpath seed);
    reflexivity.
Qed.

Lemma for_each_same_configuration {A} (l : list A) (body : A -> M unit)
    (s : DatabaseLandBalancer) :
  (forall x s', same_configuration s' (final (body x s'))) ->
  same_configuration s (final (for_each l body s)).
Proof.
  intros Hbody. revert s. induction l as [|x l IH]; intros s; cbn [for_each].
  - apply same_configuration_refl.
  - unfold bind. destruct (value (body x s)) eqn:Hx; cbn [final].
    + eapply same_configuration_trans; [apply (Hbody x s) | apply IH].
    + apply Hbody.
Qed.

Lemma add_samples_for_act_same_configuration (act : act_arg) (iterations : Z)
    (s : DatabaseLandBalancer) :
  same_configuration s (final (add_samples_for_act act iterations s)).
Proof.
  destruct (add_samples_for_act_run act iterations s) as (_ & -> & _).
  apply consume_run.
Qed.

(** A successful call that consumed at least one pair leaves data behind. *)
Lemma add_samples_for_act_leaves_data (act : act_arg) (iterations : Z)
    (s : DatabaseLandBalancer) :
  value (add_samples_for_act act iterations s) = Ok tt ->
  yields (generate_samples act s iterations) <> [] ->
  is_Some (matrix_samples (final (add_samples_for_act act iterations s))) /\
  matrix_indices (final (add_samples_for_act act iterations s)) <> [].
Proof.
  intros Hok Hne.
  destruct (add_samples_for_act_run act iterations s) as (_ & Hf & Hv).
  destruct (consume_run (yields (generate_samples act s iterations)) s)
    as (_ & _ & _ & _ & Hc).
  rewrite Hok in Hv. rewrite Hf.
  destruct (value (for_each _ add_data s)) as [[]|e]; [|discriminate Hv].
  destruct (Hc eq_refl) as (Hall & Hsome & Hi & _).
  split; [now apply Hsome|]. rewrite Hi.
  destruct (yields (generate_samples act s iterations)) as [|d ys]; [congruence|].
  apply Forall_cons in Hall as [Hd _]. cbn [flat_map].
  intros Hnil. apply (f_equal length) in Hnil.
  rewrite !length_app, length_appended in Hnil.
  destruct (snd d); [congruence | cbn [length] in Hnil; lia].
Qed.

(** C6 (as the code has it): with the matrix unset or the index list empty,
    [create_presamples] warns, returns None, raises nothing and does not call
    the package writer.  With the matrix set and the index list non-empty it
    calls the partition routine and the writer once each and returns the
    (id, path) pair the writer produced, if both return.  A successful
    [add_samples_for_act] leaves the balancer in the second situation
    provided its resampler yielded at least one pair. *)
Theorem create_presamples_guard_and_result
    (store : package_store)
    (pkg_name pkg_id : option string) (overwrite : bool) (dirpath : option string)
    (seed : seed_policy) (self : DatabaseLandBalancer) :
  (matrix_samples self = None \/ matrix_indices self = [] ->
   create_presamples store pkg_name pkg_id overwrite dirpath seed self
   = Outcome self [Warn no_data_warning] (Ok None)) /\
  (forall md written,
   is_Some (matrix_samples self) -> matrix_indices self <> [] ->
   split_inventory_presamples (matrix_samples self) (matrix_indices self) = Ok md ->
   create_presamples_package store md pkg_name pkg_id overwrite dirpath seed = Ok written ->
   create_presamples store pkg_name pkg_id overwrite dirpath seed self
   = Outcome self
       [WritePackage pkg_name pkg_id overwrite dirpath seed;
        Print ("Presamples with id_ " +:+ fst written +:+ " written at " +:+ snd written)]
       (Ok (Some written))) /\
  (forall act iterations,
   value (add_samples_for_act act iterations self) = Ok tt ->
   yields (generate_samples act self iterations) <> [] ->
   is_Some (matrix_samples (final (add_samples_for_act act iterations self))) /\
   matrix_indices (final (add_samples_for_act act iterations self)) <> []).
Proof.
  split; [|split].
  - apply create_presamples_no_data.
  - intros md written Hm Hi Hsplit Hwrite.
    rewrite create_presamples_with_data by assumption.
    now rewrite Hsplit, Hwrite.
  - intros act iterations. apply add_samples_for_act_leaves_data.
Qed.

(** C9: [create_presamples] leaves the balancer exactly as it found it,
    whether it warns, returns a pair or propagates an exception.  So it can
    be called again on the same accumulated state: a later export, on the
    package store as it is by then, goes as it would have gone on the
    balancer before the first one (what the writer answers on that store is
    its own business).  And neither [create_presamples] nor
    [add_samples_for_act] nor [add_samples_for_all_acts] changes the three
    key lists (or the names and the group) set by [__init__], even when they
    raise. *)
Theorem create_presamples_reads_only
    (store : package_store)
    (pkg_name pkg_id : option string) (overwrite : bool) (dirpath : option string)
    (seed : seed_policy) (env : project) (picks : order) (later : nat -> project)
    (act : act_arg) (iterations : Z) (self : DatabaseLandBalancer) :
  final (create_presamples store pkg_name pkg_id overwrite dirpath seed self) = self /\
  (forall store_then name' id' overwrite' dirpath' seed',
   create_presamples store_then name' id' overwrite' dirpath' seed'
     (final (create_presamples store pkg_name pkg_id overwrite dirpath seed self))
   = create_presamples store_then name' id' overwrite' dirpath' seed' self) /\
  same_configuration self (final (add_samples_for_act act iterations self)) /\
  same_configuration self
    (final (add_samples_for_all_acts env picks later iterations self)).
Proof.
  assert (Hfinal :
    final (create_presamples store pkg_name pkg_id overwrite dirpath seed self) = self).
  { destruct (matrix_samples self) as [m|] eqn:Hm;
      [|now rewrite create_presamples_no_data by auto].
    destruct (matrix_indices self) as [|i l] eqn:Hi;
      [now rewrite create_presamples_no_data by auto|].
    rewrite create_presamples_with_data by (rewrite ?Hm, ?Hi; eauto; congruence).
    destruct (split_inventory_presamples _ _); [|reflexivity].
    destruct (create_presamples_package _ _ _ _ _ _ _); reflexivity. }
  split; [exact Hfinal|]. split; [intros; now rewrite Hfinal|].
  split; [apply add_samples_for_act_same_configuration|].
  rewrite add_samples_for_all_acts_unfold, prog_bar_final.
  apply for_each_same_configuration. intros k s'.
  destruct (get_activity (later (fst k)) (snd k)) as [a|e] eqn:Hk.
  - rewrite (add_samples_for_step_found later iterations k a s' Hk).
    apply add_samples_for_act_same_configuration.
  - rewrite (add_samples_for_step_missing later iterations k e s' Hk).
    apply same_configuration_refl.
Qed.

(** * Further properties of the accumulation *)

(** Whatever a yielded pair does to the balancer, a set matrix stays set, and
    a pair that is not accumulated leaves the matrix as it found it. *)
Lemma add_data_matrix (data : ndarray * list index_entry) (s : DatabaseLandBalancer) :
  let o := add_data data s in
  (is_Some (matrix_samples s) -> is_Some (matrix_samples (final o))) /\
  (value o <> Ok tt -> matrix_samples (final o) = matrix_samples s).
Proof.
  cbv zeta. unfold add_data.
  destruct (add_indices_run (snd data) s) as (_ & [ext Hif] & _).
  destruct (value (add_indices (snd data) s)) as [[]|e] eqn:Hv.
  - rewrite (bind_Ok _ _ _ tt Hv). cbn [final value].
    destruct (add_block_run (fst data) (final (add_indices (snd data) s)))
      as (_ & _ & _ & Hok & Hfail).
    destruct (value (add_block (fst data) (final (add_indices (snd data) s))))
      as [[]|e] eqn:Hb.
    + split; [intros _; apply (Hok eq_refl) | intros H; now elim H].
    + rewrite Hfail by discriminate. rewrite Hif. split; [trivial | reflexivity].
  - rewrite (bind_Raise _ _ _ e Hv). cbn [final value]. rewrite Hif.
    split; [trivial | reflexivity].
Qed.

(** An accumulated pair fixes or confirms the width of the matrix. *)
Lemma add_data_stacks (data : ndarray * list index_entry) (s : DatabaseLandBalancer) :
  value (add_data data s) = Ok tt ->
  match matrix_samples s with
  | None => matrix_samples (final (add_data data s)) = Some (fst data)
  | Some m =>
    ncols (fst data) = ncols m /\
    matrix_samples (final (add_data data s))
    = Some {| ncols := ncols m; rows := rows m ++ rows (fst data) |}
  end.
Proof.
  unfold add_data.
  destruct (add_indices_run (snd data) s) as (_ & [ext Hif] & _).
  destruct (value (add_indices (snd data) s)) as [[]|e] eqn:Hv.
  - rewrite (bind_Ok _ _ _ tt Hv). cbn [final value].
    assert (Hm : matrix_samples (final (add_indices (snd data) s)) = matrix_samples s)
      by (now rewrite Hif).
    destruct (matrix_samples s) as [m|].
    + destruct (decide (ncols m = ncols (fst data))) as [Hc|Hc].
      * rewrite (add_block_stack _ m _ Hm Hc). cbn. auto.
      * rewrite (add_block_mismatch _ m _ Hm Hc). discriminate.
    + rewrite (add_block_first _ _ Hm). reflexivity.
  - rewrite (bind_Raise _ _ _ e Hv). discriminate.
Qed.

Lemma consume_stacks (ys : list (ndarray * list index_entry))
    (s : DatabaseLandBalancer) (m : ndarray) :
  matrix_samples s = Some m ->
  value (for_each ys add_data s) = Ok tt ->
  Forall (fun d => ncols (fst d) = ncols m) ys /\
  matrix_samples (final (for_each ys add_data s))
  = Some {| ncols := ncols m; rows := rows m ++ flat_map (fun d => rows (fst d)) ys |}.
Proof.
  revert s m. induction ys as [|d ys IH]; intros s m Hm; cbn [for_each flat_map].
  - intros _. split; [constructor|]. cbn. rewrite Hm, app_nil_r. now destruct m.
  - destruct (value (add_data d s)) as [[]|e] eqn:Hv.
    + rewrite (bind_Ok _ _ _ tt Hv). cbn [final value]. intros Hok.
      pose proof (add_data_stacks d s Hv) as Hd. rewrite Hm in Hd.
      destruct Hd as [Hw Hd].
      destruct (IH _ _ Hd Hok) as [Hall Hfin]. cbn [ncols rows] in Hall, Hfin.
      split; [now constructor|]. now rewrite Hfin, app_assoc.
    + rewrite (bind_Raise _ _ _ e Hv). discriminate.
Qed.

(** X1: a successful call stacks the yielded blocks, in the order they were
    yielded, under the matrix it found; the column count is the one of that
    matrix, or of the first block when there was none, and every block of the
    call has it.  A call that yields nothing on an unset matrix leaves it
    unset. *)
Theorem successful_call_stacks_the_blocks
    (act : act_arg) (iterations : Z) (self : DatabaseLandBalancer) :
  value (add_samples_for_act act iterations self) = Ok tt ->
  let after := matrix_samples (final (add_samples_for_act act iterations self)) in
  match matrix_samples self, yields (generate_samples act self iterations) with
  | Some m, ys =>
    Forall (fun d => ncols (fst d) = ncols m) ys /\
    after = Some {| ncols := ncols m;
                    rows := rows m ++ flat_map (fun d => rows (fst d)) ys |}
  | None, [] => after = None
  | None, d :: ys =>
    Forall (fun d' => ncols (fst d') = ncols (fst d)) ys /\
    after = Some {| ncols := ncols (fst d);
                    rows := flat_map (fun d' => rows (fst d')) (d :: ys) |}
  end.
Proof.
  intros Hok. cbv zeta.
  destruct (add_samples_for_act_run act iterations self) as (_ & Hf & Hv).
  rewrite Hok in Hv. rewrite Hf.
  destruct (value (for_each (yields (generate_samples act self iterations))
                            add_data self)) as [[]|e] eqn:Hc; [|discriminate Hv].
  destruct (matrix_samples self) as [m|] eqn:Hm.
  - exact (consume_stacks _ self m Hm Hc).
  - destruct (yields (generate_samples act self iterations)) as [|d ys].
    + exact Hm.
    + cbn [for_each] in Hc |- *.
      destruct (value (add_data d self)) as [[]|e] eqn:Hd.
      * rewrite (bind_Ok _ _ _ tt Hd) in Hc |- *. cbn [final value] in Hc |- *.
        pose proof (add_data_stacks d self Hd) as Hs. rewrite Hm in Hs.
        exact (consume_stacks ys _ (fst d) Hs Hc).
      * rewrite (bind_Raise _ _ _ e Hd) in Hc. discriminate Hc.
Qed.

(** X2: a yielded pair whose index block is empty makes the call raise the
    [IndexError] of [data[1][0]]: the pairs before it stay accumulated, its
    numeric block is not stacked, and the pairs after it are not looked at. *)
Theorem empty_index_block_raises
    (act : act_arg) (iterations : Z) (self : DatabaseLandBalancer)
    (pre post : list (ndarray * list index_entry)) (blk : ndarray) :
  yields (generate_samples act self iterations) = pre ++ (blk, []) :: post ->
  value (for_each pre add_data self) = Ok tt ->
  add_samples_for_act act iterations self
  = Outcome (final (for_each pre add_data self)) [Resample act iterations]
            (Raise (IndexError "list index out of range")).
Proof.
  intros Hy Hpre.
  assert (Hd : forall s, add_data (blk, []) s
    = Outcome s [] (Raise (IndexError "list index out of range"))) by reflexivity.
  destruct (add_samples_for_act_run act iterations self) as (He & Hf & Hv).
  rewrite Hy, for_each_app, (bind_Ok _ _ _ tt Hpre) in Hf, Hv.
  cbn [for_each emitted final value] in Hf, Hv.
  rewrite (bind_Raise _ _ _ (IndexError "list index out of range")) in Hf, Hv
    by (now rewrite Hd).
  rewrite Hd in Hf. cbn [emitted final value] in Hf, Hv.
  now apply outcome_eq.
Qed.

(** X3: only the first tuple of an index block is inspected.  If it is a
    pair, every tuple of the block with at least two components is recorded
    as its first two components followed by 'biosphere', so a triple further
    down loses its own tag; if it is not a pair, the block is recorded as it
    is, pairs further down included. *)
Theorem first_tuple_decides_for_the_block
    (first : index_entry) (rest : list index_entry) (self : DatabaseLandBalancer) :
  (length first = 2%nat -> Forall (fun row => (2 <= length row)%nat) rest ->
   add_indices (first :: rest) self
   = Outcome (with_matrix_indices self
                (matrix_indices self
                 ++ map (fun row => take 2 row ++ [FStr "biosphere"]) (first :: rest)))
             [] (Ok tt)) /\
  (length first <> 2%nat ->
   add_indices (first :: rest) self
   = Outcome (with_matrix_indices self (matrix_indices self ++ first :: rest))
             [] (Ok tt)).
Proof.
  split.
  - intros H2 Hrest.
    destruct (add_indices_run (first :: rest) self) as (He & _ & Hv).
    assert (Hok : value (add_indices (first :: rest) self) = Ok tt).
    { unfold add_indices. change ((first :: rest) !! 0%nat) with (Some first).
      cbv beta iota. rewrite decide_True by exact H2.
      apply tag_rows_succeed. constructor; [lia | exact Hrest]. }
    apply outcome_eq; [|exact He|exact Hok].
    destruct (Hv Hok) as [_ ->]. unfold appended. now rewrite decide_True.
  - intros H2. unfold add_indices. change ((first :: rest) !! 0%nat) with (Some first).
    cbv beta iota. now rewrite decide_False.
Qed.

(** X4: in a block that starts with a pair, the first tuple with fewer than
    two components ends the call with an [IndexError]; the tuples before it
    have already been appended (tagged), the ones after it are not. *)
Theorem short_tuple_stops_the_tagging
    (first : index_entry) (pre post : list index_entry) (row : index_entry)
    (self : DatabaseLandBalancer) :
  length first = 2%nat ->
  Forall (fun r => (2 <= length r)%nat) pre ->
  (length row < 2)%nat ->
  add_indices (first :: pre ++ row :: post) self
  = Outcome (with_matrix_indices self
               (matrix_indices self
                ++ map (fun r => take 2 r ++ [FStr "biosphere"]) (first :: pre)))
            [] (Raise (IndexError "tuple index out of range")).
Proof.
  intros H2 Hpre Hrow.
  assert (Hlong : Forall (fun r => (2 <= length r)%nat) (first :: pre))
    by (constructor; [lia | exact Hpre]).
  pose proof (tag_rows_succeed _ self Hlong) as Hok.
  destruct (tag_rows_run (first :: pre) self (matrix_indices self)) as (He & _ & Hv).
  rewrite with_matrix_indices_id in He, Hv. specialize (Hv Hok).
  unfold add_indices.
  change ((first :: pre ++ row :: post) !! 0%nat) with (Some first).
  cbv beta iota. rewrite decide_True by exact H2.
  change (first :: pre ++ row :: post) with ((first :: pre) ++ row :: post).
  rewrite (for_each_abort (first :: pre) post row tag_row self
             (IndexError "tuple index out of range") Hok)
    by (now rewrite tag_row_short).
  rewrite tag_row_short by exact Hrow. cbn [final emitted].
  now rewrite He, Hv.
Qed.

(** X5: when the resampler raises after having yielded some pairs, the call
    raises that exception, and the pairs it had yielded are accumulated all
    the same. *)
Theorem resampler_exception_keeps_the_yielded_blocks
    (act : act_arg) (iterations : Z) (self : DatabaseLandBalancer) (e : pyexn) :
  raised (generate_samples act self iterations) = Some e ->
  value (for_each (yields (generate_samples act self iterations)) add_data self)
  = Ok tt ->
  let after := final (add_samples_for_act act iterations self) in
  value (add_samples_for_act act iterations self) = Raise e /\
  matrix_indices after
  = matrix_indices self
    ++ flat_map (fun d => appended (snd d))
                (yields (generate_samples act self iterations)) /\
  rows_of (matrix_samples after)
  = rows_of (matrix_samples self)
    ++ flat_map (fun d => rows (fst d))
                (yields (generate_samples act self iterations)).
Proof.
  intros Hr Hc. cbv zeta.
  destruct (add_samples_for_act_run act iterations self) as (_ & Hf & Hv).
  destruct (consume_run (yields (generate_samples act self iterations)) self)
    as (_ & _ & _ & _ & Hok).
  destruct (Hok Hc) as (_ & _ & Hi & Hrows).
  rewrite Hc, Hr in Hv. rewrite Hf. auto.
Qed.

(** Accumulated data is kept: the old index list and the old rows are
    initial segments of the new ones, and a set matrix stays set. *)
Definition keeps_data (s s' : DatabaseLandBalancer) : Prop :=
  matrix_indices s `prefix_of` matrix_indices s' /\
  rows_of (matrix_samples s) `prefix_of` rows_of (matrix_samples s') /\
  (is_Some (matrix_samples s) -> is_Some (matrix_samples s')).

Lemma keeps_data_refl (s : DatabaseLandBalancer) : keeps_data s s.
Proof. now repeat split. Qed.

Lemma keeps_data_trans (s1 s2 s3 : DatabaseLandBalancer) :
  keeps_data s1 s2 -> keeps_data s2 s3 -> keeps_data s1 s3.
Proof.
  intros (Hi & Hr & Hs) (Hi' & Hr' & Hs').
  split; [now transitivity (matrix_indices s2)|].
  split; [now transitivity (rows_of (matrix_samples s2)) | auto].
Qed.

Lemma for_each_keeps_data {A} (l : list A) (body : A -> M unit)
    (s : DatabaseLandBalancer) :
  (forall x s', keeps_data s' (final (body x s'))) ->
  keeps_data s (final (for_each l body s)).
Proof.
  intros Hbody. revert s. induction l as [|x l IH]; intros s; cbn [for_each].
  - apply keeps_data_refl.
  - unfold bind. destruct (value (body x s)) eqn:Hx; cbn [final].
    + eapply keeps_data_trans; [apply (Hbody x s) | apply IH].
    + apply Hbody.
Qed.

Lemma add_data_keeps_data (d : ndarray * list index_entry) (s : DatabaseLandBalancer) :
  keeps_data s (final (add_data d s)).
Proof.
  destruct (add_data_run d s) as (_ & _ & [ext Hi] & [dr Hr] & _).
  destruct (add_data_matrix d s) as [Hs _].
  split; [now exists ext|]. split; [now exists dr | exact Hs].
Qed.

Lemma add_samples_for_act_keeps_data (act : act_arg) (iterations : Z)
    (s : DatabaseLandBalancer) :
  keeps_data s (final (add_samples_for_act act iterations s)).
Proof.
  destruct (add_samples_for_act_run act iterations s) as (_ & -> & _).
  apply for_each_keeps_data, add_data_keeps_data.
Qed.

(** X6: no call drops or reorders what has been accumulated, whether it
    returns or raises: after [add_samples_for_act] and after
    [add_samples_for_all_acts] the old index list and the old rows are initial
    segments of the new ones, and a matrix that was set is still set. *)
Theorem accumulated_data_is_never_dropped
    (env : project) (picks : order) (later : nat -> project)
    (act : act_arg) (iterations : Z) (self : DatabaseLandBalancer) :
  keeps_data self (final (add_samples_for_act act iterations self)) /\
  keeps_data self (final (add_samples_for_all_acts env picks later iterations self)).
Proof.
  split; [apply add_samples_for_act_keeps_data|].
  rewrite add_samples_for_all_acts_unfold, prog_bar_final.
  apply for_each_keeps_data. intros k s'.
  destruct (get_activity (later (fst k)) (snd k)) as [a|e] eqn:Hk.
  - rewrite (add_samples_for_step_found later iterations k a s' Hk).
    apply add_samples_for_act_keeps_data.
  - rewrite (add_samples_for_step_missing later iterations k e s' Hk).
    apply keeps_data_refl.
Qed.

Lemma aligned_blocks_lengths (ys : list (ndarray * list index_entry)) :
  Forall (fun d => length (snd d) = nrows (fst d)) ys ->
  length (flat_map (fun d => appended (snd d)) ys)
  = length (flat_map (fun d => rows (fst d)) ys).
Proof.
  induction 1 as [|d ys Hd _ IH]; [reflexivity|].
  cbn [flat_map]. rewrite !length_app, IH, length_appended, Hd. reflexivity.
Qed.

(** X7: the gap between the index list and the matrix never closes by
    itself.  Over a run of successful calls whose index blocks have one tuple
    per row, from whatever state, the index list and the matrix grow by the
    same number of entries and rows; so an index list that was ahead of the
    matrix (after a failed stacking) stays ahead by as much. *)
Theorem gap_between_indices_and_rows_persists
    (calls : list (act_arg * Z)) (self : DatabaseLandBalancer) :
  value (run_calls calls self) = Ok tt ->
  Forall (fun d => length (snd d) = nrows (fst d)) (blocks_yielded calls self) ->
  let after := final (run_calls calls self) in
  (length (matrix_indices after) + length (rows_of (matrix_samples self))
   = length (matrix_indices self) + length (rows_of (matrix_samples after)))%nat.
Proof.
  intros Hok Hall. cbv zeta.
  destruct (run_calls_run calls self) as (_ & _ & _ & Hv).
  destruct (Hv Hok) as (_ & -> & ->).
  rewrite !length_app, (aligned_blocks_lengths _ Hall). lia.
Qed.

(** * Further properties of the export *)

Lemma create_presamples_final (store : package_store)
    (pkg_name pkg_id : option string) (overwrite : bool)
    (dirpath : option string) (seed : seed_policy) (s : DatabaseLandBalancer) :
  final (create_presamples store pkg_name pkg_id overwrite dirpath seed s) = s.
Proof.
  destruct (matrix_samples s) as [m|] eqn:Hm;
    [|now rewrite create_presamples_no_data by auto].
  destruct (matrix_indices s) as [|i l] eqn:Hi;
    [now rewrite create_presamples_no_data by auto|].
  rewrite create_presamples_with_data by (rewrite ?Hm, ?Hi; eauto; congruence).
  destruct (split_inventory_presamples _ _); [|reflexivity].
  destruct (create_presamples_package _ _ _ _ _ _ _); reflexivity.
Qed.

(** X8: a failure of a collaborator during the export reaches the caller as
    it is and costs no data.  If the partition routine raises, the package
    writer is not called; if the writer raises (an existing package and
    [overwrite=False], say), the closing line is not printed; in both cases
    the balancer is left as it was, ready for another attempt. *)
Theorem export_failures_propagate
    (store : package_store)
    (pkg_name pkg_id : option string) (overwrite : bool) (dirpath : option string)
    (seed : seed_policy) (self : DatabaseLandBalancer) (e : pyexn) :
  is_Some (matrix_samples self) -> matrix_indices self <> [] ->
  (split_inventory_presamples (matrix_samples self) (matrix_indices self) = Raise e ->
   create_presamples store pkg_name pkg_id overwrite dirpath seed self
   = Outcome self [] (Raise e)) /\
  (forall md,
   split_inventory_presamples (matrix_samples self) (matrix_indices self) = Ok md ->
   create_presamples_package store md pkg_name pkg_id overwrite dirpath seed = Raise e ->
   create_presamples store pkg_name pkg_id overwrite dirpath seed self
   = Outcome self [WritePackage pkg_name pkg_id overwrite dirpath seed] (Raise e)).
Proof.
  intros Hm Hi. rewrite create_presamples_with_data by assumption. split.
  - now intros ->.
  - intros md -> ->. reflexivity.
Qed.

(** The balancers a program can hold: built by [__init__] over some project,
    then put through the methods, whatever they returned or raised. *)
Inductive reachable : DatabaseLandBalancer -> Prop :=
| reach_init env order_from order_to db bio grp froms tos out s :
    init env order_from order_to db bio grp froms tos = (out, Ok s) -> reachable s
| reach_add_samples_for_act act iterations s :
    reachable s -> reachable (final (add_samples_for_act act iterations s))
| reach_add_samples_for_all_acts env picks later iterations s :
    reachable s ->
    reachable (final (add_samples_for_all_acts env picks later iterations s))
| reach_create_presamples store pkg_name pkg_id overwrite dirpath seed s :
    reachable s ->
    reachable (final (create_presamples store pkg_name pkg_id overwrite dirpath seed s)).

Definition indexed_when_set (s : DatabaseLandBalancer) : Prop :=
  is_Some (matrix_samples s) -> matrix_indices s <> [].

Lemma for_each_invariant {A} (P : DatabaseLandBalancer -> Prop) (l : list A)
    (body : A -> M unit) (s : DatabaseLandBalancer) :
  (forall x s', P s' -> P (final (body x s'))) ->
  P s -> P (final (for_each l body s)).
Proof.
  intros Hbody. revert s. induction l as [|x l IH]; intros s Hs; cbn [for_each].
  - exact Hs.
  - unfold bind. destruct (value (body x s)) eqn:Hx; cbn [final].
    + apply IH, Hbody, Hs.
    + apply Hbody, Hs.
Qed.

Lemma add_data_indexed_when_set (d : ndarray * list index_entry)
    (s : DatabaseLandBalancer) :
  indexed_when_set s -> indexed_when_set (final (add_data d s)).
Proof.
  unfold indexed_when_set. intros Hs Hsome.
  destruct (add_data_run d s) as (_ & _ & [ext Hi] & _ & Hok).
  destruct (add_data_matrix d s) as [_ Hfail].
  destruct (value (add_data d s)) as [[]|e] eqn:Hv.
  - destruct (Hok eq_refl) as (Hne & _ & -> & _).
    intros Hnil. apply (f_equal length) in Hnil.
    rewrite length_app, length_appended in Hnil.
    destruct (snd d); [congruence | cbn [length] in Hnil; lia].
  - rewrite Hfail in Hsome by discriminate. rewrite Hi.
    intros Hnil. apply app_eq_nil in Hnil as [Hnil _]. now apply Hs.
Qed.

Lemma add_samples_for_act_indexed_when_set (act : act_arg) (iterations : Z)
    (s : DatabaseLandBalancer) :
  indexed_when_set s -> indexed_when_set (final (add_samples_for_act act iterations s)).
Proof.
  destruct (add_samples_for_act_run act iterations s) as (_ & -> & _).
  apply for_each_invariant. intros d s'. apply add_data_indexed_when_set.
Qed.

Lemma reachable_indexed_when_set (s : DatabaseLandBalancer) :
  reachable s -> indexed_when_set s.
Proof.
  induction 1 as [env order_from order_to db bio grp froms tos out s Hinit
                 | act iterations s _ IH
                 | env picks later iterations s _ IH
                 | store pkg_name pkg_id overwrite dirpath seed s _ IH].
  - unfold init in Hinit.
    destruct (env !! db); [|discriminate].
    destruct (env !! bio); [|discriminate].
    injection Hinit as _ <-. intros [m Hm]. discriminate Hm.
  - now apply add_samples_for_act_indexed_when_set.
  - rewrite add_samples_for_all_acts_unfold, prog_bar_final.
    apply for_each_invariant; [|exact IH]. intros k s' Hs'.
    destruct (get_activity (later (fst k)) (snd k)) as [a|e] eqn:Hk.
    + rewrite (add_samples_for_step_found later iterations k a s' Hk).
      now apply add_samples_for_act_indexed_when_set.
    + now rewrite (add_samples_for_step_missing later iterations k e s' Hk).
  - now rewrite create_presamples_final.
Qed.

(** X9: on a balancer built by [__init__] and put through any methods, with
    any outcomes, a set matrix comes with a non-empty index list.  So the
    second operand of the guard of [create_presamples] never decides: the
    export warns and returns None exactly when [matrix_samples] is None. *)
Theorem export_guard_follows_the_matrix
    (store : package_store)
    (pkg_name pkg_id : option string) (overwrite : bool) (dirpath : option string)
    (seed : seed_policy) (self : DatabaseLandBalancer) :
  reachable self ->
  (is_Some (matrix_samples self) -> matrix_indices self <> []) /\
  (create_presamples store pkg_name pkg_id overwrite dirpath seed self
   = Outcome self [Warn no_data_warning] (Ok None)
   <-> matrix_samples self = None).
Proof.
  intros Hreach. pose proof (reachable_indexed_when_set self Hreach) as Hinv.
  split; [exact Hinv|]. split.
  - intros Hwarn. destruct (matrix_samples self) as [m|] eqn:Hm; [|reflexivity].
    assert (Hsome : is_Some (matrix_samples self)) by (rewrite Hm; eauto).
    rewrite create_presamples_with_data in Hwarn by auto.
    destruct (split_inventory_presamples _ _); [|discriminate Hwarn].
    destruct (create_presamples_package _ _ _ _ _ _ _); discriminate Hwarn.
  - intros Hm. apply create_presamples_no_data. now left.
Qed.

(** * Further properties of the batch *)

Lemma steps_are_calls (later : nat -> project) (iterations : Z) (i : nat)
    (acts : list dataset) (s : DatabaseLandBalancer) :
  Forall (fun step => get_activity (later (fst step)) (key (snd step)) = Ok (snd step))
         (numbered i acts) ->
  for_each (numbered i (map key acts)) (add_samples_for_step later iterations) s
  = run_calls (map (fun d => (ByActivity d, iterations)) acts) s.
Proof.
  unfold run_calls. revert i s.
  induction acts as [|d acts IH]; intros i s Hall;
    cbn [map numbered for_each fst snd].
  - reflexivity.
  - apply Forall_cons in Hall as [Hd Hall]. cbn [fst snd] in Hd.
    unfold bind.
    rewrite (add_samples_for_step_found later iterations (i, key d) d s Hd).
    destruct (value (add_samples_for_act (ByActivity d) iterations s));
      [now rewrite IH | reflexivity].
Qed.

(** X10: on a database that is not empty, when [bd.get_activity] returns, at
    each step, the dataset whose key is handled, [add_samples_for_all_acts]
    is the same as calling [add_samples_for_act] by hand on each activity in
    the order of the iteration: same final balancer, same collaborator calls,
    same result or exception.  On an empty database the two differ: no call
    made by hand raises nothing, while the batch raises the [AssertionError]
    of the progress bar. *)
Theorem batch_is_the_calls_made_by_hand
    (env : project) (picks : order) (later : nat -> project) (iterations : Z)
    (self : DatabaseLandBalancer) :
  let acts := draw picks (Database env (database_name self)) in
  (acts <> [] ->
   Forall (fun step => get_activity (later (fst step)) (key (snd step)) = Ok (snd step))
          (numbered 0 acts) ->
   add_samples_for_all_acts env picks later iterations self
   = run_calls (map (fun d => (ByActivity d, iterations)) acts) self) /\
  (acts = [] ->
   add_samples_for_all_acts env picks later iterations self
   = Outcome self [] (Raise AssertionError) /\
   run_calls (map (fun d => (ByActivity d, iterations)) acts) self
   = Outcome self [] (Ok tt)).
Proof.
  cbv zeta. rewrite add_samples_for_all_acts_unfold. split.
  - intros Hne Hall. rewrite prog_bar_items.
    + now apply steps_are_calls.
    + destruct (draw picks (Database env (database_name self))); [congruence|].
      discriminate.
  - intros ->. split; reflexivity.
Qed.

(** * Further properties of the classifier *)

Lemma contains_empty_pattern (s : string) : contains "" s = true.
Proof. rewrite contains_unfold. now destruct s. Qed.

(** X11: the two loops of [__init__] at their edges.  Without patterns no
    flow is listed; the empty pattern occurs in every name, so it lists every
    flow of the registry, once and in order; and a list never holds more than
    one entry per flow and pattern. *)
Theorem classifier_pattern_edges (flows : list dataset) (patterns : list string) :
  classify flows [] = [] /\
  classify flows [""] = map key flows /\
  (length (classify flows patterns) <= length flows * length patterns)%nat.
Proof.
  rewrite !classify_flat_map. split; [|split].
  - induction flows as [|ef flows IH]; [reflexivity | exact IH].
  - induction flows as [|ef flows IH]; [reflexivity|].
    cbn [flat_map map]. unfold matching at 1. cbn [List.filter].
    rewrite contains_empty_pattern. cbn [length repeat app]. now rewrite IH.
  - induction flows as [|ef flows IH]; [cbn; lia|].
    cbn [flat_map length]. rewrite length_app, repeat_length.
    pose proof (filter_length_le (fun pat => contains pat (name ef)) patterns) as Hle.
    unfold matching at 1. lia.
Qed.

(** X12: nothing keeps the two categories apart.  A flow whose name contains
    a "from" pattern and a "to" pattern is listed in [land_in_keys] and in
    [land_out_keys], hence at least twice in [all_land_keys]. *)
Theorem flow_matching_both_categories_is_in_both_lists
    (env : project) (order_from order_to : order) (db bio grp : string)
    (froms tos : list string) (out : list event) (self : DatabaseLandBalancer)
    (ef : dataset) (pf pt : string) :
  init env order_from order_to db bio grp froms tos = (out, Ok self) ->
  In ef (Database env bio) ->
  In pf froms -> contains pf (name ef) = true ->
  In pt tos -> contains pt (name ef) = true ->
  In (key ef) (land_in_keys self) /\
  In (key ef) (land_out_keys self) /\
  (2 <= count_occ (fun x y : Key => decide (x = y)) (all_land_keys self) (key ef))%nat.
Proof.
  unfold init. intros H Hef Hpf Hcf Hpt Hct.
  destruct (env !! db); [|discriminate].
  destruct (env !! bio); [|discriminate].
  injection H as _ <-. cbn [land_in_keys land_out_keys all_land_keys].
  assert (Hin : In (key ef) (classify (draw order_from (Database env bio)) froms))
    by (apply classify_In; exists ef, pf; rewrite draw_In; auto).
  assert (Hout : In (key ef) (classify (draw order_to (Database env bio)) tos))
    by (apply classify_In; exists ef, pt; rewrite draw_In; auto).
  split; [exact Hin|]. split; [exact Hout|].
  rewrite count_occ_app.
  apply (count_occ_In (fun x y : Key => decide (x = y))) in Hin, Hout. lia.
Qed.

End Balancer.

Arguments Outcome {sample A} final emitted value.
Arguments final {sample A} o.
Arguments emitted {sample A} o.
Arguments value {sample A} o.

(** * A small project, and the theorems at work on it *)

Module Example.

Definition forest : Key := ("biosphere3", "f1").
Definition arable : Key := ("biosphere3", "f2").
Definition wheat : dataset := Dataset ("db", "a1") "wheat production".
Definition barley : dataset := Dataset ("db", "a2") "barley production".
Definition oats : dataset := Dataset ("db", "a3") "oat production".

Definition env : project :=
  <[ "biosphere3" := [Dataset forest "Transformation, from forest";
                      Dataset arable "Transformation, to arable";
                      Dataset ("biosphere3", "f3") "Carbon dioxide, fossil"] ]>
  (<[ "db" := [wheat; barley; oats] ]> ∅).

(** The balancer [DatabaseLandBalancer("db")] builds over [env]. *)
Definition fresh : @DatabaseLandBalancer Z :=
  {| database_name := "db"; biosphere := "biosphere3"; group := "land";
     matrix_indices := []; matrix_samples := None;
     land_in_keys := [forest]; land_out_keys := [arable];
     all_land_keys := [forest; arable] |}.

Definition key_of (act : act_arg) : Key :=
  match act with
  | ByKey k => k
  | ByActivity d => key d
  end.

(** One block of two rows and [iterations] columns, indexed by pairs. *)
Definition block (act : act_arg) (iterations : Z) : @ndarray Z * list index_entry :=
  ({| ncols := Z.to_nat iterations;
      rows := [repeat 1%Z (Z.to_nat iterations); repeat 2%Z (Z.to_nat iterations)] |},
   [[FKey forest; FKey (key_of act)]; [FKey arable; FKey (key_of act)]]).

Definition resampler (act : act_arg) (self : @DatabaseLandBalancer Z) (iterations : Z)
  : @gen_trace Z :=
  {| yields := [block act iterations]; raised := None |}.

(** A resampler for activities without land exchanges: it yields nothing. *)
Definition silent (act : act_arg) (self : @DatabaseLandBalancer Z) (iterations : Z)
  : @gen_trace Z :=
  {| yields := []; raised := None |}.

(** A resampler that gives up on barley. *)
Definition picky (act : act_arg) (self : @DatabaseLandBalancer Z) (iterations : Z)
  : @gen_trace Z :=
  if bool_decide (key_of act = key barley)
  then {| yields := []; raised := Some (CollaboratorError "no balance found") |}
  else resampler act self iterations.

(** Index tuples that arrive in their final form. *)
Definition tagged : list index_entry :=
  [[FKey forest; FKey (key wheat); FStr "biosphere"];
   [FKey (key barley); FKey (key wheat); FStr "technosphere"]].

Definition split (m : option (@ndarray Z)) (l : list index_entry)
  : result (list (list Z) * list index_entry) :=
  Ok (rows_of m, l).

(** A package directory: the store lists the ids of the packages it holds.
    An id that is not given is generated from their number; an id that is
    there already is refused unless [overwrite] is set. *)
Definition writer (store : list string) (md : list (list Z) * list index_entry)
    (pkg_name pkg_id : option string) (overwrite : bool) (dirpath : option string)
    (seed : seed_policy) : result (string * string) :=
  let id := default ("generated-" +:+ pretty (length store)) pkg_id in
  if bool_decide (id ∈ store) && negb overwrite
  then Raise (ValueError "The presampled directory already exists")
  else Ok (id, default "presamples" dirpath).

(** The iterations of the examples follow the stored order unless said
    otherwise, and the project stays as it is while a batch runs. *)
Definition stored_order : order := [].
Definition unchanged : nat -> project := fun _ => env.

Definition two_calls : list (act_arg * Z) :=
  [(ByKey (key wheat), 3%Z); (ByActivity barley, 3%Z)].

(** The balancer after [add_samples_for_act(wheat, 100)]. *)
Definition loaded : @DatabaseLandBalancer Z :=
  final (add_samples_for_act resampler (ByKey (key wheat)) 100 fresh).

Lemma accumulation_is_monotonic_witness :
  matrix_indices fresh = [] /\ matrix_samples fresh = None /\
  value (run_calls resampler two_calls fresh) = Ok tt /\
  length (rows_of (matrix_samples (final (run_calls resampler two_calls fresh))))
  = 4%nat /\
  length (matrix_indices (final (run_calls resampler two_calls fresh))) = 4%nat /\
  matrix_indices (final (run_calls resampler [(ByKey (key wheat), 3%Z)] fresh))
    `prefix_of` matrix_indices (final (run_calls resampler two_calls fresh)).
Proof.
  split; [reflexivity|]. split; [reflexivity|]. split; [reflexivity|].
  destruct (accumulation_is_monotonic resampler two_calls fresh
              eq_refl eq_refl eq_refl) as (Hrows & Hidx & Hmono).
  split; [exact Hrows|]. split.
  - rewrite Hidx; [exact Hrows | vm_compute; repeat constructor].
  - apply (Hmono [(ByKey (key wheat), 3%Z)] [(ByActivity barley, 3%Z)] eq_refl).
Defined.

Lemma index_tuples_round_trip_witness :
  add_indices (snd (block (ByKey (key wheat)) 3)) fresh
  = Outcome (with_matrix_indices fresh
               [[FKey forest; FKey (key wheat); FStr "biosphere"];
                [FKey arable; FKey (key wheat); FStr "biosphere"]]) [] (Ok tt) /\
  add_indices tagged fresh = Outcome (with_matrix_indices fresh tagged) [] (Ok tt) /\
  matrix_indices (final (add_samples_for_act resampler (ByKey (key wheat)) 3 fresh))
  = [[FKey forest; FKey (key wheat); FStr "biosphere"];
     [FKey arable; FKey (key wheat); FStr "biosphere"]].
Proof.
  destruct (index_tuples_round_trip resampler (ByKey (key wheat)) 3 fresh
              (snd (block (ByKey (key wheat)) 3))) as (Hpairs & _ & Hcall).
  destruct (index_tuples_round_trip resampler (ByKey (key wheat)) 3 fresh tagged)
    as (_ & Htriples & _).
  split; [apply Hpairs; [discriminate | repeat constructor]|].
  split; [apply Htriples; [discriminate | repeat constructor]|].
  apply Hcall; [reflexivity | repeat constructor].
Defined.

Lemma all_land_keys_is_concatenation_witness :
  init env stored_order stored_order "db" "biosphere3" "land"
       ["Transformation, from"] ["Transformation, to"]
  = ([Print "Validating data";
      Print "Getting information on land transformation exchanges"], Ok fresh) /\
  all_land_keys fresh = land_in_keys fresh ++ land_out_keys fresh /\
  length (all_land_keys fresh)
  = (length (land_in_keys fresh) + length (land_out_keys fresh))%nat.
Proof.
  split; [reflexivity|].
  apply (all_land_keys_is_concatenation env stored_order stored_order
           "db" "biosphere3" "land"
           ["Transformation, from"] ["Transformation, to"] _ fresh eq_refl).
Defined.

(** Two "from" patterns that both occur in the name of the forest flow, and
    a "to" pattern that occurs in two names. *)
Definition overlapping : list string := ["Transformation, from"; "from forest"].

(** An iteration that visits the second stored flow first. *)
Definition second_first : order := [1%nat].

Definition doubled : @DatabaseLandBalancer Z :=
  {| database_name := "db"; biosphere := "biosphere3"; group := "land";
     matrix_indices := []; matrix_samples := None;
     land_in_keys := [forest; forest]; land_out_keys := [arable; forest];
     all_land_keys := [forest; forest; arable; forest] |}.

Lemma classifier_lists_one_key_per_match_witness :
  init env stored_order second_first "db" "biosphere3" "land"
       overlapping ["Transformation"]
  = ([Print "Validating data";
      Print "Getting information on land transformation exchanges"], Ok doubled) /\
  map key (draw stored_order (Database env "biosphere3"))
  = [forest; arable; ("biosphere3", "f3")] /\
  map key (draw second_first (Database env "biosphere3"))
  = [arable; forest; ("biosphere3", "f3")] /\
  land_in_keys doubled = [forest; forest] /\
  land_out_keys doubled = [arable; forest] /\
  (In forest (land_in_keys doubled) <->
   exists ef pat, In ef (Database env "biosphere3") /\ key ef = forest /\
                  In pat overlapping /\ exists a c, name ef = a +:+ pat +:+ c) /\
  count_occ (fun x y : Key => decide (x = y)) (land_in_keys doubled) forest = 2%nat.
Proof.
  split; [reflexivity|]. split; [reflexivity|]. split; [reflexivity|].
  destruct (classifier_lists_one_key_per_match env stored_order second_first
              "db" "biosphere3" "land" overlapping ["Transformation"] _ doubled
              eq_refl)
    as (_ & [Hin Hout] & Hlisted & Hcount).
  split; [exact Hin|]. split; [exact Hout|]. split; [apply Hlisted|].
  apply (Hcount (Dataset forest "Transformation, from forest")).
  - refine (bool_decide_unpack _ _). vm_compute. exact I.
  - left. reflexivity.
Defined.

Lemma init_checks_both_databases_witness :
  env !! "ecoinvent" = None /\ env !! "biosphere2" = None /\
  is_Some (env !! "db") /\ is_Some (env !! "biosphere3") /\
  init (sample := Z) env stored_order stored_order "ecoinvent" "biosphere3" "land"
       ["Transformation, from"] ["Transformation, to"]
  = ([Print "Validating data"],
     Raise (ValueError "Database ecoinvent not imported")) /\
  init (sample := Z) env stored_order stored_order "db" "biosphere2" "land"
       ["Transformation, from"] ["Transformation, to"]
  = ([Print "Validating data"],
     Raise (ValueError "Database biosphere2 not imported")) /\
  (exists self : @DatabaseLandBalancer Z,
     snd (init env stored_order stored_order "db" "biosphere3" "land"
               ["Transformation, from"] ["Transformation, to"]) = Ok self) /\
  matrix_indices fresh = [] /\ matrix_samples fresh = None.
Proof.
  assert (Hdb : is_Some (env !! "db")) by (vm_compute; eauto).
  assert (Hbio : is_Some (env !! "biosphere3")) by (vm_compute; eauto).
  split; [reflexivity|]. split; [reflexivity|].
  split; [exact Hdb|]. split; [exact Hbio|].
  destruct (init_checks_both_databases (sample := Z) env stored_order
              stored_order "ecoinvent" "biosphere3"
              "land" ["Transformation, from"] ["Transformation, to"])
    as (Hnodb & _).
  destruct (init_checks_both_databases (sample := Z) env stored_order
              stored_order "db" "biosphere2"
              "land" ["Transformation, from"] ["Transformation, to"])
    as (_ & Hnobio & _).
  destruct (init_checks_both_databases (sample := Z) env stored_order
              stored_order "db" "biosphere3"
              "land" ["Transformation, from"] ["Transformation, to"])
    as (_ & _ & Hsome & Hempty).
  split; [exact (Hnodb eq_refl)|]. split; [exact (Hnobio eq_refl Hdb)|].
  split; [exact (Hsome Hdb Hbio)|].
  exact (Hempty _ fresh eq_refl).
Defined.

Lemma create_presamples_guard_and_result_witness :
  matrix_samples fresh = None /\
  create_presamples split writer [] (Some "land") None false None SeedSequential fresh
  = Outcome fresh [Warn no_data_warning] (Ok None) /\
  value (add_samples_for_act resampler (ByKey (key wheat)) 100 fresh) = Ok tt /\
  is_Some (matrix_samples loaded) /\ matrix_indices loaded <> [] /\
  create_presamples split writer [] (Some "land") None false None SeedSequential loaded
  = Outcome loaded
      [WritePackage (Some "land") None false None SeedSequential;
       Print "Presamples with id_ generated-0 written at presamples"]
      (Ok (Some ("generated-0", "presamples"))).
Proof.
  split; [reflexivity|].
  split; [apply (create_presamples_guard_and_result resampler split writer []); now left|].
  split; [reflexivity|].
  destruct (create_presamples_guard_and_result resampler split writer []
              (Some "land") None false None SeedSequential fresh) as (_ & _ & Hdata).
  destruct (Hdata (ByKey (key wheat)) 100%Z eq_refl) as [Hm Hi]; [discriminate|].
  split; [exact Hm|]. split; [exact Hi|].
  destruct (create_presamples_guard_and_result resampler split writer []
              (Some "land") None false None SeedSequential loaded) as (_ & Hpair & _).
  apply (Hpair _ ("generated-0", "presamples") Hm Hi eq_refl eq_refl).
Defined.

(** A successful call that yielded nothing leaves nothing to export. *)
Lemma create_presamples_after_silent_call :
  value (add_samples_for_act silent (ByKey (key wheat)) 100 fresh) = Ok tt /\
  create_presamples split writer [] None None false None SeedSequential
    (final (add_samples_for_act silent (ByKey (key wheat)) 100 fresh))
  = Outcome fresh [Warn no_data_warning] (Ok None).
Proof. split; reflexivity. Qed.

Lemma width_mismatch_fails_in_concatenate_witness :
  yields (resampler (ByKey (key wheat)) loaded 50)
  = [] ++ block (ByKey (key wheat)) 50 :: [] /\
  value (for_each [] add_data loaded) = Ok tt /\
  matrix_samples (final (for_each [] add_data loaded))
  = Some (fst (block (ByKey (key wheat)) 100)) /\
  ncols (fst (block (ByKey (key wheat)) 50))
  <> ncols (fst (block (ByKey (key wheat)) 100)) /\
  value (add_samples_for_act resampler (ByKey (key wheat)) 50 loaded)
  = Raise concatenate_mismatch /\
  np_concatenate (fst (block (ByKey (key wheat)) 100)) (fst (block (ByKey (key wheat)) 50))
  = Raise concatenate_mismatch.
Proof.
  assert (Hw : ncols (fst (block (ByKey (key wheat)) 50))
               <> ncols (fst (block (ByKey (key wheat)) 100)))
    by (vm_compute; lia).
  split; [reflexivity|]. split; [reflexivity|]. split; [reflexivity|].
  split; [exact Hw|].
  apply (width_mismatch_fails_in_concatenate resampler (ByKey (key wheat)) 50 loaded
           [] [] (fst (block (ByKey (key wheat)) 50))
           (fst (block (ByKey (key wheat)) 100))
           (snd (block (ByKey (key wheat)) 50)) eq_refl eq_refl eq_refl Hw).
  - discriminate.
  - left. repeat constructor.
Defined.

(** An iteration that visits the last stored activity first. *)
Definition last_first : order := [2%nat].

Definition rye : dataset := Dataset ("db", "a4") "rye production".

(** A project in which rye is added once the batch has started, one in which
    barley is deleted once it has started, and one whose database is empty. *)
Definition grown (step : nat) : project :=
  match step with
  | O => env
  | S _ => <[ "db" := [wheat; barley; oats; rye] ]> env
  end.

Definition shrunk (step : nat) : project :=
  match step with
  | O => env
  | S _ => <[ "db" := [wheat; oats] ]> env
  end.

Definition bare : project := <[ "db" := [] ]> env.

Lemma batch_runs_in_order_and_aborts_witness :
  (map key (draw last_first (Database env "db")) = [key oats; key wheat; key barley] /\
   map key (draw last_first (Database env "db")) ≡ₚ map key (Database env "db")) /\
  (value (add_samples_for_all_acts resampler env last_first grown 3 fresh) = Ok tt /\
   emitted (add_samples_for_all_acts resampler env last_first grown 3 fresh)
   = [Resample (ByActivity oats) 3; Resample (ByActivity wheat) 3;
      Resample (ByActivity barley) 3] /\
   exists acts,
     Forall2 (fun step a => get_activity (grown (fst step)) (snd step) = Ok a)
             (numbered 0 (map key (draw last_first (Database env "db")))) acts /\
     emitted (add_samples_for_all_acts resampler env last_first grown 3 fresh)
     = map (fun a => Resample (ByActivity a) 3) acts /\
     final (add_samples_for_all_acts resampler env last_first grown 3 fresh)
     = final (run_calls resampler (map (fun a => (ByActivity a, 3%Z)) acts) fresh)) /\
  (map key (draw stored_order (Database bare "db")) = [] /\
   add_samples_for_all_acts resampler bare stored_order (fun _ => bare) 3 fresh
   = Outcome fresh [] (Raise AssertionError)) /\
  (value (add_samples_for_all_acts picky env stored_order unchanged 3 fresh)
   = Raise (CollaboratorError "no balance found") /\
   ((map key (draw stored_order (Database env "db")) = [] /\
     CollaboratorError "no balance found" = AssertionError) \/
    exists done step rest acts,
      numbered 0 (map key (draw stored_order (Database env "db")))
      = done ++ step :: rest /\
      Forall2 (fun step a => get_activity (unchanged (fst step)) (snd step) = Ok a)
              done acts /\
      value (for_each done (add_samples_for_step picky unchanged 3) fresh) = Ok tt /\
      value (add_samples_for_step picky unchanged 3 step
               (final (for_each done (add_samples_for_step picky unchanged 3) fresh)))
      = Raise (CollaboratorError "no balance found") /\
      final (add_samples_for_all_acts picky env stored_order unchanged 3 fresh)
      = final (add_samples_for_step picky unchanged 3 step
                 (final (for_each done (add_samples_for_step picky unchanged 3) fresh))) /\
      emitted (add_samples_for_all_acts picky env stored_order unchanged 3 fresh)
      = map (fun a => Resample (ByActivity a) 3) acts
        ++ match get_activity (unchanged (fst step)) (snd step) with
           | Ok a => [Resample (ByActivity a) 3]
           | Raise _ => []
           end)) /\
  (numbered 0 (map key (draw stored_order (Database env "db")))
   = [(0%nat, key wheat)] ++ (1%nat, key barley) :: [(2%nat, key oats)] /\
   value (for_each [(0%nat, key wheat)] (add_samples_for_step resampler shrunk 3) fresh)
   = Ok tt /\
   value (add_samples_for_step resampler shrunk 3 (1%nat, key barley)
            (final (for_each [(0%nat, key wheat)]
                             (add_samples_for_step resampler shrunk 3) fresh)))
   = Raise (UnknownObject (key barley)) /\
   add_samples_for_all_acts resampler env stored_order shrunk 3 fresh
   = Outcome (final (add_samples_for_act resampler (ByActivity wheat) 3 fresh))
             [Resample (ByActivity wheat) 3]
             (Raise (UnknownObject (key barley)))).
Proof.
  destruct (batch_runs_in_order_and_aborts resampler env last_first grown 3 fresh)
    as ((Hperm & _) & _ & Hok & _).
  destruct (batch_runs_in_order_and_aborts resampler bare stored_order
              (fun _ => bare) 3 fresh) as (_ & Hempty & _).
  destruct (batch_runs_in_order_and_aborts picky env stored_order unchanged 3 fresh)
    as (_ & _ & _ & Hfirst & _).
  destruct (batch_runs_in_order_and_aborts resampler env stored_order shrunk 3 fresh)
    as (_ & _ & _ & _ & Habort).
  split; [split; [reflexivity | exact Hperm]|].
  split; [split; [reflexivity|]; split; [reflexivity | exact (Hok eq_refl)]|].
  split; [split; [reflexivity | exact (Hempty eq_refl)]|].
  split; [split; [reflexivity | exact (Hfirst _ eq_refl)]|].
  split; [reflexivity|]. split; [reflexivity|]. split; [reflexivity|].
  exact (Habort [(0%nat, key wheat)] (1%nat, key barley) [(2%nat, key oats)]
           (UnknownObject (key barley)) eq_refl eq_refl eq_refl).
Defined.

Lemma failed_concatenation_leaves_indices_ahead_witness :
  yields (resampler (ByKey (key wheat)) loaded 50)
  = [] ++ block (ByKey (key wheat)) 50 :: [] /\
  value (for_each [] add_data loaded) = Ok tt /\
  matrix_samples (final (for_each [] add_data loaded))
  = Some (fst (block (ByKey (key wheat)) 100)) /\
  ncols (fst (block (ByKey (key wheat)) 50))
  <> ncols (fst (block (ByKey (key wheat)) 100)) /\
  length (matrix_indices loaded) = nrows (fst (block (ByKey (key wheat)) 100)) /\
  value (add_samples_for_act resampler (ByKey (key wheat)) 50 loaded)
  = Raise concatenate_mismatch /\
  matrix_indices (final (add_samples_for_act resampler (ByKey (key wheat)) 50 loaded))
  = matrix_indices loaded
    ++ [[FKey forest; FKey (key wheat); FStr "biosphere"];
        [FKey arable; FKey (key wheat); FStr "biosphere"]] /\
  matrix_samples (final (add_samples_for_act resampler (ByKey (key wheat)) 50 loaded))
  = matrix_samples loaded /\
  (length (rows_of (matrix_samples
             (final (add_samples_for_act resampler (ByKey (key wheat)) 50 loaded))))
   < length (matrix_indices
               (final (add_samples_for_act resampler (ByKey (key wheat)) 50 loaded))))%nat.
Proof.
  assert (Hw : ncols (fst (block (ByKey (key wheat)) 50))
               <> ncols (fst (block (ByKey (key wheat)) 100)))
    by (vm_compute; lia).
  split; [reflexivity|]. split; [reflexivity|]. split; [reflexivity|].
  split; [exact Hw|]. split; [reflexivity|].
  destruct (failed_concatenation_leaves_indices_ahead resampler (ByKey (key wheat)) 50
              loaded [] [] (fst (block (ByKey (key wheat)) 50))
              (fst (block (ByKey (key wheat)) 100))
              (snd (block (ByKey (key wheat)) 50)) eq_refl eq_refl eq_refl Hw)
    as (Hraise & Hidx & Hmat & Hlen).
  - discriminate.
  - left. repeat constructor.
  - split; [exact Hraise|]. split; [exact Hidx|]. split; [exact Hmat|].
    exact (Hlen eq_refl).
Defined.

(** ** The further properties at work *)

(** A resampler whose second pair has lost its index block. *)
Definition hollow (act : act_arg) (self : @DatabaseLandBalancer Z) (iterations : Z)
  : @gen_trace Z :=
  {| yields := [block act iterations; (fst (block act iterations), [])];
     raised := None |}.

(** A resampler that raises after its first pair. *)
Definition faltering (act : act_arg) (self : @DatabaseLandBalancer Z) (iterations : Z)
  : @gen_trace Z :=
  {| yields := [block act iterations];
     raised := Some (CollaboratorError "sampling failed") |}.

(** The balancer after the failed call of width 50 on [loaded]. *)
Definition ahead : @DatabaseLandBalancer Z :=
  final (add_samples_for_act resampler (ByKey (key wheat)) 50 loaded).

Definition failing_split (m : option (@ndarray Z)) (l : list index_entry)
  : result (list (list Z) * list index_entry) :=
  Raise (CollaboratorError "unknown matrix label").

(** A package directory that already holds the package "land-2021". *)
Definition taken : list string := ["land-2021"].

(** What [__init__] builds when "Transformation" alone is the "from" pattern. *)
Definition blurred : @DatabaseLandBalancer Z :=
  {| database_name := "db"; biosphere := "biosphere3"; group := "land";
     matrix_indices := []; matrix_samples := None;
     land_in_keys := [forest; arable]; land_out_keys := [arable];
     all_land_keys := [forest; arable; arable] |}.

Lemma successful_call_stacks_the_blocks_witness :
  value (add_samples_for_act resampler (ByKey (key wheat)) 3 fresh) = Ok tt /\
  matrix_samples (final (add_samples_for_act resampler (ByKey (key wheat)) 3 fresh))
  = Some {| ncols := 3; rows := [[1; 1; 1]; [2; 2; 2]]%Z |}.
Proof.
  split; [reflexivity|].
  exact (proj2 (successful_call_stacks_the_blocks resampler (ByKey (key wheat)) 3
                  fresh eq_refl)).
Defined.

Lemma empty_index_block_raises_witness :
  yields (hollow (ByKey (key wheat)) fresh 3)
  = [block (ByKey (key wheat)) 3] ++ (fst (block (ByKey (key wheat)) 3), []) :: [] /\
  value (for_each [block (ByKey (key wheat)) 3] add_data fresh) = Ok tt /\
  add_samples_for_act hollow (ByKey (key wheat)) 3 fresh
  = Outcome (final (add_samples_for_act resampler (ByKey (key wheat)) 3 fresh))
            [Resample (ByKey (key wheat)) 3]
            (Raise (IndexError "list index out of range")).
Proof.
  split; [reflexivity|]. split; [reflexivity|].
  exact (empty_index_block_raises hollow (ByKey (key wheat)) 3 fresh
           [block (ByKey (key wheat)) 3] [] (fst (block (ByKey (key wheat)) 3))
           eq_refl eq_refl).
Defined.

Lemma first_tuple_decides_for_the_block_witness :
  add_indices ([FKey forest; FKey (key wheat)]
               :: [[FKey (key barley); FKey (key wheat); FStr "technosphere"]]) fresh
  = Outcome (with_matrix_indices fresh
               [[FKey forest; FKey (key wheat); FStr "biosphere"];
                [FKey (key barley); FKey (key wheat); FStr "biosphere"]])
            [] (Ok tt) /\
  add_indices ([FKey (key barley); FKey (key wheat); FStr "technosphere"]
               :: [[FKey forest; FKey (key wheat)]]) fresh
  = Outcome (with_matrix_indices fresh
               [[FKey (key barley); FKey (key wheat); FStr "technosphere"];
                [FKey forest; FKey (key wheat)]])
            [] (Ok tt).
Proof.
  split.
  - apply (first_tuple_decides_for_the_block [FKey forest; FKey (key wheat)]
             [[FKey (key barley); FKey (key wheat); FStr "technosphere"]] fresh);
      [reflexivity | repeat constructor].
  - apply (first_tuple_decides_for_the_block
             [FKey (key barley); FKey (key wheat); FStr "technosphere"]
             [[FKey forest; FKey (key wheat)]] fresh).
    cbn. lia.
Defined.

Lemma short_tuple_stops_the_tagging_witness :
  add_indices ([FKey forest; FKey (key wheat)]
               :: [[FKey arable; FKey (key wheat)]]
               ++ [FKey forest] :: [[FKey arable; FKey (key barley)]]) fresh
  = Outcome (with_matrix_indices fresh
               [[FKey forest; FKey (key wheat); FStr "biosphere"];
                [FKey arable; FKey (key wheat); FStr "biosphere"]])
            [] (Raise (IndexError "tuple index out of range")).
Proof.
  apply (short_tuple_stops_the_tagging [FKey forest; FKey (key wheat)]
           [[FKey arable; FKey (key wheat)]] [[FKey arable; FKey (key barley)]]
           [FKey forest] fresh);
    [reflexivity | repeat constructor | cbn; lia].
Defined.

Lemma resampler_exception_keeps_the_yielded_blocks_witness :
  raised (faltering (ByKey (key wheat)) fresh 3)
  = Some (CollaboratorError "sampling failed") /\
  value (add_samples_for_act faltering (ByKey (key wheat)) 3 fresh)
  = Raise (CollaboratorError "sampling failed") /\
  matrix_indices (final (add_samples_for_act faltering (ByKey (key wheat)) 3 fresh))
  = [[FKey forest; FKey (key wheat); FStr "biosphere"];
     [FKey arable; FKey (key wheat); FStr "biosphere"]] /\
  rows_of (matrix_samples
             (final (add_samples_for_act faltering (ByKey (key wheat)) 3 fresh)))
  = [[1; 1; 1]; [2; 2; 2]]%Z.
Proof.
  split; [reflexivity|].
  exact (resampler_exception_keeps_the_yielded_blocks faltering (ByKey (key wheat)) 3
           fresh (CollaboratorError "sampling failed") eq_refl eq_refl).
Defined.

Lemma gap_between_indices_and_rows_persists_witness :
  length (matrix_indices ahead) = 4%nat /\
  length (rows_of (matrix_samples ahead)) = 2%nat /\
  value (run_calls resampler [(ByActivity barley, 100%Z)] ahead) = Ok tt /\
  length (matrix_indices (final (run_calls resampler [(ByActivity barley, 100%Z)] ahead)))
  = 6%nat /\
  length (rows_of (matrix_samples
                     (final (run_calls resampler [(ByActivity barley, 100%Z)] ahead))))
  = 4%nat.
Proof.
  split; [reflexivity|]. split; [reflexivity|]. split; [reflexivity|].
  pose proof (gap_between_indices_and_rows_persists resampler
                [(ByActivity barley, 100%Z)] ahead eq_refl) as Hgap.
  assert (Hrows : length (rows_of (matrix_samples
                    (final (run_calls resampler [(ByActivity barley, 100%Z)] ahead))))
                  = 4%nat) by reflexivity.
  split; [|exact Hrows].
  cbv zeta in Hgap. rewrite Hrows in Hgap.
  change (length (matrix_indices ahead)) with 4%nat in Hgap.
  change (length (rows_of (matrix_samples ahead))) with 2%nat in Hgap.
  assert (Haligned : Forall (fun d : @ndarray Z * list index_entry =>
                               length (snd d) = nrows (fst d))
                            (blocks_yielded resampler [(ByActivity barley, 100%Z)] ahead))
    by (repeat constructor).
  specialize (Hgap Haligned). lia.
Defined.

Lemma export_failures_propagate_witness :
  is_Some (matrix_samples loaded) /\ matrix_indices loaded <> [] /\
  create_presamples failing_split writer taken None (Some "land-2021") false None
    SeedSequential loaded
  = Outcome loaded [] (Raise (CollaboratorError "unknown matrix label")) /\
  create_presamples split writer taken None (Some "land-2021") false None
    SeedSequential loaded
  = Outcome loaded [WritePackage None (Some "land-2021") false None SeedSequential]
            (Raise (ValueError "The presampled directory already exists")).
Proof.
  assert (Hm : is_Some (matrix_samples loaded)) by (vm_compute; eauto).
  assert (Hi : matrix_indices loaded <> []) by discriminate.
  split; [exact Hm|]. split; [exact Hi|]. split.
  - apply (proj1 (export_failures_propagate failing_split writer taken None
                    (Some "land-2021") false None SeedSequential loaded _ Hm Hi)).
    reflexivity.
  - apply (proj2 (export_failures_propagate split writer taken None
                    (Some "land-2021") false None SeedSequential loaded _ Hm Hi)
             (rows_of (matrix_samples loaded), matrix_indices loaded));
      reflexivity.
Defined.

(** Two exports in a row of the same balancer: the second finds the package
    of the first in the directory. *)
Lemma create_presamples_reads_only_witness :
  create_presamples split writer [] None None false None SeedSequential loaded
  = Outcome loaded
      [WritePackage None None false None SeedSequential;
       Print "Presamples with id_ generated-0 written at presamples"]
      (Ok (Some ("generated-0", "presamples"))) /\
  create_presamples split writer ["generated-0"] None None false None SeedSequential
    (final (create_presamples split writer [] None None false None SeedSequential
              loaded))
  = Outcome loaded
      [WritePackage None None false None SeedSequential;
       Print "Presamples with id_ generated-1 written at presamples"]
      (Ok (Some ("generated-1", "presamples"))) /\
  create_presamples split writer ["land"] None (Some "land") false None SeedSequential
    (final (create_presamples split writer [] None (Some "land") false None
              SeedSequential loaded))
  = Outcome loaded [WritePackage None (Some "land") false None SeedSequential]
            (Raise (ValueError "The presampled directory already exists")).
Proof.
  split; [reflexivity|].
  destruct (create_presamples_reads_only resampler split writer [] None None false
              None SeedSequential env stored_order unchanged (ByKey (key wheat)) 3
              loaded) as (_ & Hagain & _).
  destruct (create_presamples_reads_only resampler split writer [] None (Some "land")
              false None SeedSequential env stored_order unchanged
              (ByKey (key wheat)) 3 loaded) as (_ & Hrefused & _).
  split; [rewrite Hagain | rewrite Hrefused]; reflexivity.
Defined.

Lemma export_guard_follows_the_matrix_witness :
  reachable resampler split writer loaded /\
  matrix_indices loaded <> [] /\
  (create_presamples split writer [] None None false None SeedSequential loaded
   = Outcome loaded [Warn no_data_warning] (Ok None)
   <-> matrix_samples loaded = None).
Proof.
  assert (Hreach : reachable resampler split writer loaded).
  { apply reach_add_samples_for_act.
    apply (reach_init resampler split writer env stored_order stored_order
             "db" "biosphere3" "land"
             ["Transformation, from"] ["Transformation, to"] _ fresh eq_refl). }
  split; [exact Hreach|].
  destruct (export_guard_follows_the_matrix resampler split writer []
              None None false None SeedSequential loaded Hreach) as [Hinv Hguard].
  split; [apply Hinv; vm_compute; eauto | exact Hguard].
Defined.

Lemma batch_is_the_calls_made_by_hand_witness :
  draw last_first (Database env "db") <> [] /\
  Forall (fun step => get_activity (unchanged (fst step)) (key (snd step))
                      = Ok (snd step))
         (numbered 0 (draw last_first (Database env "db"))) /\
  add_samples_for_all_acts resampler env last_first unchanged 3 fresh
  = run_calls resampler
      [(ByActivity oats, 3%Z); (ByActivity wheat, 3%Z); (ByActivity barley, 3%Z)]
      fresh /\
  add_samples_for_all_acts resampler bare stored_order (fun _ => bare) 3 fresh
  = Outcome fresh [] (Raise AssertionError) /\
  run_calls resampler [] fresh = Outcome fresh [] (Ok tt).
Proof.
  assert (Hne : draw last_first (Database env "db") <> []) by discriminate.
  assert (Hall : Forall (fun step => get_activity (unchanged (fst step))
                                       (key (snd step)) = Ok (snd step))
                        (numbered 0 (draw last_first (Database env "db"))))
    by (repeat constructor).
  split; [exact Hne|]. split; [exact Hall|].
  split.
  - exact (proj1 (batch_is_the_calls_made_by_hand resampler env last_first
                    unchanged 3 fresh) Hne Hall).
  - exact (proj2 (batch_is_the_calls_made_by_hand resampler bare stored_order
                    (fun _ => bare) 3 fresh) eq_refl).
Defined.

Lemma flow_matching_both_categories_is_in_both_lists_witness :
  init env stored_order stored_order "db" "biosphere3" "land"
       ["Transformation"] ["Transformation, to"]
  = ([Print "Validating data";
      Print "Getting information on land transformation exchanges"], Ok blurred) /\
  In arable (land_in_keys blurred) /\
  In arable (land_out_keys blurred) /\
  (2 <= count_occ (fun x y : Key => decide (x = y)) (all_land_keys blurred) arable)%nat.
Proof.
  split; [reflexivity|].
  apply (flow_matching_both_categories_is_in_both_lists env stored_order
           stored_order "db" "biosphere3" "land" ["Transformation"]
           ["Transformation, to"] _ blurred
           (Dataset arable "Transformation, to arable")
           "Transformation" "Transformation, to" eq_refl).
  - right. left. reflexivity.
  - left. reflexivity.
  - reflexivity.
  - left. reflexivity.
  - reflexivity.
Defined.

End Example.
